(** * Listing and aggregation utilities of the timber marketplace

    A shallow embedding of the three pure computations of the application:

    - [calculateCubicMeters] (the demand form and the stock form carry the
      same function),
    - [loadOrderStatusSummary] and [loadStockStatusSummary] (admin dashboard),
    - [loadTopCompaniesByVolume] (admin dashboard).

    Number model.  A JavaScript number is modelled as an exact rational,
    extended with [NaN] and the two infinities where the code can meet them.
    The binary64 rounding of intermediate results is not modelled: arithmetic
    is exact, [Math.PI] is the exact value of the binary64 constant, and
    [parseFloat (x.toFixed d)] is the rational with [d] decimals nearest to
    [x] (ties away from zero, as [toFixed] breaks them).  Zero is unsigned.

    String model.  A JavaScript string is a [string]; each character stands
    for one UTF-16 code unit below 256. *)

From Stdlib Require Import ZArith QArith Qround Qabs Bool List String Ascii.
From Stdlib Require Import Lia Lqa Permutation Sorted DecimalString.
Import ListNotations.

Local Open Scope Z_scope.
Local Open Scope Q_scope.

(** ** JavaScript numbers *)

Module JS.

Inductive number : Type :=
| NaN
| PosInf
| NegInf
| Fin (q : Q).

(** Equality of numbers as values ([NaN] is only used as a result here,
    never compared with [===]). *)
Definition num_eq (x y : number) : Prop :=
  match x, y with
  | NaN, NaN | PosInf, PosInf | NegInf, NegInf => True
  | Fin a, Fin b => a == b
  | _, _ => False
  end.

Definition isNaN (x : number) : bool :=
  match x with NaN => true | _ => false end.

(** [x > 0] *)
Definition gt0 (x : number) : bool :=
  match x with
  | PosInf => true
  | Fin q => negb (Qle_bool q 0)
  | NaN | NegInf => false
  end.


Definition add (x y : number) : number :=
  match x, y with
  | NaN, _ | _, NaN => NaN
  | PosInf, NegInf | NegInf, PosInf => NaN
  | PosInf, _ | _, PosInf => PosInf
  | NegInf, _ | _, NegInf => NegInf
  | Fin a, Fin b => Fin (a + b)
  end.

Definition sign_inf (positive_result : bool) : number :=
  if positive_result then PosInf else NegInf.

(** Sign of a finite value: [Lt], [Eq] or [Gt] against zero. *)
Definition sgn (q : Q) : comparison := q ?= 0.

Definition mul_inf (pos : bool) (y : number) : number :=
  match y with
  | NaN => NaN
  | PosInf => sign_inf pos
  | NegInf => sign_inf (negb pos)
  | Fin b => match sgn b with
             | Eq => NaN
             | Gt => sign_inf pos
             | Lt => sign_inf (negb pos)
             end
  end.

Definition mul (x y : number) : number :=
  match x, y with
  | NaN, _ | _, NaN => NaN
  | PosInf, _ => mul_inf true y
  | NegInf, _ => mul_inf false y
  | _, PosInf => mul_inf true x
  | _, NegInf => mul_inf false x
  | Fin a, Fin b => Fin (a * b)
  end.

(** Division; the divisors of the modelled code are the literals [2] and
    [100], a zero divisor is given for completeness (unsigned zero). *)
Definition div (x y : number) : number :=
  match x, y with
  | NaN, _ | _, NaN => NaN
  | (PosInf | NegInf), (PosInf | NegInf) => NaN
  | PosInf, Fin b => sign_inf (match sgn b with Lt => false | _ => true end)
  | NegInf, Fin b => sign_inf (match sgn b with Lt => true | _ => false end)
  | Fin _, (PosInf | NegInf) => Fin 0
  | Fin a, Fin b =>
      match sgn b with
      | Eq => match sgn a with Eq => NaN | Gt => PosInf | Lt => NegInf end
      | _ => Fin (a / b)
      end
  end.

(** [Math.pow(x, 2)] *)
Definition pow2 (x : number) : number := mul x x.

(** [Math.PI]: the binary64 constant 0x400921FB54442D18, exactly. *)
Definition PI : Q := 884279719003555 # 281474976710656.

(** [10^d] for a number of decimals [d]. *)
Definition pow10 (d : nat) : Z := 10 ^ Z.of_nat d.

(** The integer [n] of [Number.prototype.toFixed]: [n / 10^d] is nearest to
    the non-negative [x], the larger [n] on a tie. *)
Definition nearest (d : nat) (x : Q) : Z :=
  Qfloor (x * inject_Z (pow10 d) + (1 # 2)).

(** [parseFloat(x.toFixed(d))] on a finite value: [toFixed] prints the sign
    and rounds the magnitude. *)
Definition roundTo (d : nat) (x : Q) : Q :=
  if Qle_bool 0 x
  then Qmake (nearest d x) (Z.to_pos (pow10 d))
  else Qmake (- nearest d (- x)) (Z.to_pos (pow10 d)).

(** [parseFloat(x.toFixed(d))]; [toFixed] prints "NaN" and "Infinity",
    which [parseFloat] reads back. *)
Definition toFixed_parsed (d : nat) (x : number) : number :=
  match x with
  | Fin q => Fin (roundTo d q)
  | other => other
  end.

(** ** [parseFloat] and [parseInt] *)

(** Truthiness of a string: every string but the empty one. *)
Definition truthy (s : string) : bool :=
  match s with EmptyString => false | String _ _ => true end.

(** White space skipped in front of a numeric string (TAB, LF, VT, FF, CR,
    SP, NBSP: the code units below 256 of StrWhiteSpaceChar). *)
Definition isWhiteSpace (c : ascii) : bool :=
  let n := N_of_ascii c in
  ((9 <=? n) && (n <=? 13) || (n =? 32) || (n =? 160))%N.

Fixpoint trimStart (s : string) : string :=
  match s with
  | String c r => if isWhiteSpace c then trimStart r else s
  | EmptyString => s
  end.

(** The value of [c] as a digit of radix [R] (at most 16), if it is one. *)
Definition digit_in (R : Z) (c : ascii) : option Z :=
  (let n := Z.of_N (N_of_ascii c) in
   let v := if (48 <=? n) && (n <=? 57) then n - 48
            else if (97 <=? n) && (n <=? 102) then n - 87
            else if (65 <=? n) && (n <=? 70) then n - 55
            else 16 in
   if v <? R then Some v else None)%Z.

(** The longest prefix of radix-[R] digits, and what follows it. *)
Fixpoint digits (R : Z) (s : string) : list Z * string :=
  match s with
  | String c r =>
      match digit_in R c with
      | Some v => let (ds, rest) := digits R r in (v :: ds, rest)
      | None => ([], s)
      end
  | EmptyString => ([], s)
  end.

Definition digits_value (R : Z) (ds : list Z) : Z :=
  fold_left (fun acc v => (R * acc + v)%Z) ds 0%Z.

(** [s] begins with the characters of [p]. *)
Fixpoint startsWith (p s : string) : bool :=
  match p, s with
  | EmptyString, _ => true
  | String a p', String b s' => (Ascii.eqb b a && startsWith p' s')%bool
  | String _ _, EmptyString => false
  end.

(** An optional sign: [true] for a minus. *)
Definition signOf (s : string) : bool * string :=
  match s with
  | String c r =>
      if Ascii.eqb c "-" then (true, r)
      else if Ascii.eqb c "+" then (false, r)
      else (false, s)
  | EmptyString => (false, s)
  end.

(** The exponent of an ExponentPart at the head of [s]; [0] when there is
    none (an "e" without digits is not part of the literal). *)
Definition exponentPart (s : string) : Z :=
  match s with
  | String c r =>
      if (Ascii.eqb c "e" || Ascii.eqb c "E")%bool then
        let (minus, r') := signOf r in
        match digits 10 r' with
        | ([], _) => 0%Z
        | (ds, _) => if minus then (- digits_value 10 ds)%Z else digits_value 10 ds
        end
      else 0%Z
  | EmptyString => 0%Z
  end.

(** Digits without a fraction, then an optional exponent. *)
Definition wholeLiteral (ip : list Z) (rest : string) : option Q :=
  match ip with
  | [] => None
  | _ => Some (inject_Z (digits_value 10 ip) * Qpower 10 (exponentPart rest))
  end.

(** StrUnsignedDecimalLiteral without "Infinity": digits, an optional
    fraction, an optional exponent; the longest prefix that is one. *)
Definition unsignedDecimal (s : string) : option Q :=
  let (ip, r1) := digits 10 s in
  match r1 with
  | String c r2 =>
      if Ascii.eqb c "." then
        let (fp, r3) := digits 10 r2 in
        match ip, fp with
        | [], [] => None
        | _, _ =>
            Some ((inject_Z (digits_value 10 ip)
                   + inject_Z (digits_value 10 fp)
                     / inject_Z (pow10 (List.length fp)))
                  * Qpower 10 (exponentPart r3))
        end
      else wholeLiteral ip r1
  | EmptyString => wholeLiteral ip r1
  end.

Definition parseFloat (s : string) : number :=
  let (minus, r) := signOf (trimStart s) in
  if startsWith "Infinity" r then (if minus then NegInf else PosInf)
  else match unsignedDecimal r with
       | Some q => Fin (if minus then - q else q)
       | None => NaN
       end.

(** The "0x" or "0X" that selects radix 16. *)
Definition hexPrefix (s : string) : option string :=
  match s with
  | String c (String x r) =>
      if (Ascii.eqb c "0" && (Ascii.eqb x "x" || Ascii.eqb x "X"))%bool
      then Some r else None
  | _ => None
  end.

(** [parseInt(s)] without a radix: decimal, or hexadecimal after "0x". *)
Definition parseInt (s : string) : number :=
  let (minus, r) := signOf (trimStart s) in
  let (R, body) :=
    match hexPrefix r with
    | Some r' => (16%Z, r')
    | None => (10%Z, r)
    end in
  match digits R body with
  | ([], _) => NaN
  | (ds, _) =>
      let v := digits_value R ds in
      Fin (inject_Z (if minus then (- v)%Z else v))
  end.

(** ** Words of the specification about an input field *)

Definition isDigit (c : ascii) : bool :=
  match digit_in 10 c with Some _ => true | None => false end.

(** A field is numeric when a number stands at its head: after white space
    and a sign, a digit, a point before a digit, or "Infinity". *)
Definition numeric_head (s : string) : bool :=
  let (_, r) := signOf (trimStart s) in
  (startsWith "Infinity" r
   || match r with
      | String c r' =>
          isDigit c
          || (Ascii.eqb c "."
              && match r' with String c' _ => isDigit c' | EmptyString => false end)
      | EmptyString => false
      end)%bool.



(** [x <= 0] *)
Definition le0 (x : number) : bool :=
  match x with
  | NegInf => true
  | Fin q => Qle_bool q 0
  | NaN | PosInf => false
  end.

End JS.

(** ** Data model (types.ts) *)

Inductive UserRole : Type := ADMIN | CUSTOMER | MANUFACTURER.

Definition UserRole_eqb (a b : UserRole) : bool :=
  match a, b with
  | ADMIN, ADMIN | CUSTOMER, CUSTOMER | MANUFACTURER, MANUFACTURER => true
  | _, _ => false
  end.

(** The form state of the demand and stock pages; every input is a string
    as the form delivers it. *)
Record ProductFeatures : Type := mkProductFeatures {
  diameterType : string;
  diameterFrom : string;
  diameterTo : string;
  length' : string;
  quantity : string;
  cubicMeters : option JS.number;
  notes : option string
}.

(** ** Volume calculator *)

Section VolumeCalculator.

Variable formData : ProductFeatures.

(** [(parseFloat(diameterFrom) + parseFloat(diameterTo)) / 2 / 100] *)
Definition avgDiameter : JS.number :=
  JS.div (JS.div (JS.add (JS.parseFloat (diameterFrom formData))
                         (JS.parseFloat (diameterTo formData)))
                 (JS.Fin 2))
         (JS.Fin 100).

(** [avgDiameter / 2], the radius that is squared. *)
Definition avgRadius : JS.number := JS.div avgDiameter (JS.Fin 2).

(** [Math.PI * Math.pow(avgDiameter / 2, 2) * len] *)
Definition volumePerPiece : JS.number :=
  JS.mul (JS.mul (JS.Fin JS.PI) (JS.pow2 avgRadius))
         (JS.parseFloat (length' formData)).

(** The value [calculateCubicMeters] stores in [cubicMeters]. *)
Definition cubicMetersOf : JS.number :=
  if (JS.truthy (diameterFrom formData) && JS.truthy (diameterTo formData)
      && JS.truthy (length' formData) && JS.truthy (quantity formData))%bool then
    let len := JS.parseFloat (length' formData) in
    let qty := JS.parseInt (quantity formData) in
    if (negb (JS.isNaN avgDiameter) && negb (JS.isNaN len) && negb (JS.isNaN qty)
        && JS.gt0 avgDiameter)%bool then
      JS.toFixed_parsed 3 (JS.mul volumePerPiece qty)
    else JS.Fin 0
  else JS.Fin 0.

(** [setFormData(prev => ({ ...prev, cubicMeters: v }))] *)
Definition calculateCubicMeters : ProductFeatures :=
  {| diameterType := diameterType formData;
     diameterFrom := diameterFrom formData;
     diameterTo := diameterTo formData;
     length' := length' formData;
     quantity := quantity formData;
     cubicMeters := Some cubicMetersOf;
     notes := notes formData |}.

End VolumeCalculator.

(** A form holding the four inputs, the rest as [initialFormData] has it. *)
Definition form (dF dT l q : string) : ProductFeatures :=
  mkProductFeatures "" dF dT l q (Some (JS.Fin 0)) (Some ""%string).

(** The closed form of the specification:
    [pi * ((dF + dT) / 200)^2 / 4 * len * qty]; it squares the average
    diameter in metres, [(dF + dT) / 200], and quarters the square. *)
Definition volume_formula (dF dT len qty : Q) : Q :=
  JS.PI * ((dF + dT) / 200) ^ 2 / 4 * len * qty.




(** The value stored by [calculateCubicMeters]. *)
Definition volume (dF dT l q : string) : option JS.number :=
  cubicMeters (calculateCubicMeters (form dF dT l q)).

(** ** Stored records and the dashboard state *)

(** String enums of types.ts: the values are the strings themselves. *)
Module DemandStatus.
Definition RECEIVED : string := "Received".
Definition PROCESSING : string := "Processing".
Definition COMPLETED : string := "Completed".
Definition CANCELLED : string := "Cancelled".
Definition values : list string := [RECEIVED; PROCESSING; COMPLETED; CANCELLED].
End DemandStatus.

Module StockStatus.
Definition AVAILABLE : string := "Available".
Definition RESERVED : string := "Reserved".
Definition SOLD : string := "Sold".
Definition values : list string := [AVAILABLE; RESERVED; SOLD].
End StockStatus.

(** A [DemandItem] or [StockItem] as [JSON.parse] returns it: the properties
    the dashboard reads, [None] for a property the object does not have.
    JSON has no [NaN] or infinity, so a stored volume is a finite number. *)
Module Stored.
Record Item : Type := mkItem {
  status : option string;
  cubicMeters : option Q;
  submittedByCompanyId : option string;
  uploadedByCompanyId : option string
}.
End Stored.

Record MockCompany : Type := mkCompany {
  id : string;
  companyName : string;
  role : UserRole
}.

(** The three [localStorage] entries, parsed; a missing entry reads as []. *)
Record Storage : Type := mkStorage {
  MOCK_COMPANIES : list MockCompany;
  CUSTOMER_DEMANDS : list Stored.Item;
  MANUFACTURER_STOCK : list Stored.Item
}.

Record StatusSummaryPoint : Type := mkPoint {
  point_status : string;
  count : nat;
  percentage : Q;
  colorClass : string
}.

Record ChartEntry : Type := mkEntry {
  label : string;
  value : Q;
  color : string
}.

(** The part of [AdminFeatureState] these functions write. *)
Record AdminFeatureState : Type := mkState {
  totalDemandsCount : option nat;
  totalStockItemsCount : option nat;
  topCustomersByVolume : option (list ChartEntry);
  topManufacturersByVolume : option (list ChartEntry)
}.

(** ** Objects used as maps

    A plain object keyed by strings, as the list of its own properties in
    insertion order (the order [Object.keys] returns for keys that are not
    array indices).  Properties inherited from [Object.prototype] are not
    modelled: no status and no company id of the application is named
    like one of them. *)
Module Obj.
Section Obj.
Context {V : Type}.

Definition t : Type := list (string * V).

Fixpoint get (k : string) (o : t) : option V :=
  match o with
  | [] => None
  | (k', v) :: o' => if String.eqb k k' then Some v else get k o'
  end.

(** [o[k] = v]: overwrite in place, or append a new property. *)
Fixpoint set (k : string) (v : V) (o : t) : t :=
  match o with
  | [] => [(k, v)]
  | (k', v') :: o' =>
      if String.eqb k k' then (k', v) :: o' else (k', v') :: set k v o'
  end.

Definition keys (o : t) : list string := map fst o.

End Obj.
Arguments t : clear implicits.
End Obj.

(** ** Status aggregator *)

Definition DemandStatusColorMap : Obj.t string :=
  [ (DemandStatus.RECEIVED, "text-sky-500"%string);
    (DemandStatus.PROCESSING, "text-amber-500"%string);
    (DemandStatus.COMPLETED, "text-green-500"%string);
    (DemandStatus.CANCELLED, "text-red-500"%string) ].

Definition StockStatusColorMap : Obj.t string :=
  [ (StockStatus.AVAILABLE, "text-green-600"%string);
    (StockStatus.RESERVED, "text-yellow-600"%string);
    (StockStatus.SOLD, "text-red-600"%string) ].

(** [colorMap[k]], which the callers below only read at keys it has. *)
Definition colorOf (m : Obj.t string) (k : string) : string :=
  match Obj.get k m with Some c => c | None => "" end.

(** [colorMap[k] || 'bg-slate-500'] *)
Definition colorOrDefault (m : Obj.t string) (k : string) : string :=
  match Obj.get k m with
  | Some c => if JS.truthy c then c else "bg-slate-500"
  | None => "bg-slate-500"
  end.

(** [if (counts[k] !== undefined) counts[k]++] *)
Definition countStatus (counts : Obj.t nat) (k : string) : Obj.t nat :=
  match Obj.get k counts with
  | Some n => Obj.set k (S n) counts
  | None => counts
  end.

(** [counts[k]] at a key [counts] was initialised with. *)
Definition countAt (counts : Obj.t nat) (k : string) : nat :=
  match Obj.get k counts with Some n => n | None => 0%nat end.

(** [parseFloat(((c / total) * 100).toFixed(1))] for [total <> 0] *)
Definition percentOf (c total : nat) : Q :=
  JS.roundTo 1 (inject_Z (Z.of_nat c) / inject_Z (Z.of_nat total) * 100).

Definition summaryPoint (colors : Obj.t string) (counts : Obj.t nat)
    (total : nat) (k : string) : StatusSummaryPoint :=
  {| point_status := k;
     count := countAt counts k;
     percentage := percentOf (countAt counts k) total;
     colorClass := colorOf colors k |}.

Definition zeroPoint (colors : Obj.t string) (statusKey : string)
    : StatusSummaryPoint :=
  {| point_status := statusKey;
     count := 0;
     percentage := 0;
     colorClass := colorOrDefault colors statusKey |}.

(** The [counts] object of [loadOrderStatusSummary] after the [forEach]. *)
Definition demandCounts (demands : list Stored.Item) : Obj.t nat :=
  fold_left
    (fun counts d =>
       match Stored.status d with
       | Some k => countStatus counts k
       | None => counts
       end)
    demands
    [ (DemandStatus.RECEIVED, 0%nat); (DemandStatus.PROCESSING, 0%nat);
      (DemandStatus.COMPLETED, 0%nat); (DemandStatus.CANCELLED, 0%nat) ].

(** The rows [loadOrderStatusSummary] returns. *)
Definition orderStatusSummary (demands : list Stored.Item)
    : list StatusSummaryPoint :=
  let counts := demandCounts demands in
  let total := List.length demands in
  if Nat.eqb total 0 then
    map (zeroPoint DemandStatusColorMap) (Obj.keys counts)
  else
    [ summaryPoint DemandStatusColorMap counts total DemandStatus.RECEIVED;
      summaryPoint DemandStatusColorMap counts total DemandStatus.PROCESSING;
      summaryPoint DemandStatusColorMap counts total DemandStatus.COMPLETED;
      summaryPoint DemandStatusColorMap counts total DemandStatus.CANCELLED ].

(** [loadOrderStatusSummary]: the rows, and the state after
    [setState(prev => ({...prev, totalDemandsCount: total}))]. *)
Definition loadOrderStatusSummary (st : Storage) (prev : AdminFeatureState)
    : list StatusSummaryPoint * AdminFeatureState :=
  let demands := CUSTOMER_DEMANDS st in
  (orderStatusSummary demands,
   {| totalDemandsCount := Some (List.length demands);
      totalStockItemsCount := totalStockItemsCount prev;
      topCustomersByVolume := topCustomersByVolume prev;
      topManufacturersByVolume := topManufacturersByVolume prev |}).

(** The [counts] object of [loadStockStatusSummary] after the [forEach];
    the guard is [s.status && counts[s.status] !== undefined]. *)
Definition stockCounts (stockItems : list Stored.Item) : Obj.t nat :=
  fold_left
    (fun counts s =>
       match Stored.status s with
       | Some k => if JS.truthy k then countStatus counts k else counts
       | None => counts
       end)
    stockItems
    [ (StockStatus.AVAILABLE, 0%nat); (StockStatus.RESERVED, 0%nat);
      (StockStatus.SOLD, 0%nat) ].

Definition stockStatusSummary (stockItems : list Stored.Item)
    : list StatusSummaryPoint :=
  let counts := stockCounts stockItems in
  let total := List.length stockItems in
  if Nat.eqb total 0 then
    map (zeroPoint StockStatusColorMap) (Obj.keys counts)
  else
    [ summaryPoint StockStatusColorMap counts total StockStatus.AVAILABLE;
      summaryPoint StockStatusColorMap counts total StockStatus.RESERVED;
      summaryPoint StockStatusColorMap counts total StockStatus.SOLD ].

Definition loadStockStatusSummary (st : Storage) (prev : AdminFeatureState)
    : list StatusSummaryPoint * AdminFeatureState :=
  let stockItems := MANUFACTURER_STOCK st in
  (stockStatusSummary stockItems,
   {| totalDemandsCount := totalDemandsCount prev;
      totalStockItemsCount := Some (List.length stockItems);
      topCustomersByVolume := topCustomersByVolume prev;
      topManufacturersByVolume := topManufacturersByVolume prev |}).

(** ** Words of the specification about the aggregator *)

(** The record carries the status [k]. *)
Definition hasStatus (k : string) (d : Stored.Item) : bool :=
  match Stored.status d with
  | Some k' => String.eqb k' k
  | None => false
  end.

(** The number of records with status [k]. *)
Definition recordsWith (k : string) (items : list Stored.Item) : nat :=
  List.length (filter (hasStatus k) items).

(** The status of the record is drawn from the enumeration [values]. *)
Definition statusIn (values : list string) (d : Stored.Item) : bool :=
  existsb (fun k => hasStatus k d) values.

Definition sumCounts (rows : list StatusSummaryPoint) : nat :=
  list_sum (map count rows).

Definition sumPercentages (rows : list StatusSummaryPoint) : Q :=
  fold_right Qplus 0 (map percentage rows).

(** ** Company volume ranker *)

(** [Array.prototype.sort(comparefn)]: stable since ES2019, and a stable
    sort has one result whatever the algorithm; here by insertion, each
    element entering in front of the sorted rest of the array.  A negative
    [comparefn a b] puts [a] first, a positive one [b], zero keeps them. *)
Section Sort.
Context {A : Type} (comparefn : A -> A -> Q).

Fixpoint insert (a : A) (l : list A) : list A :=
  match l with
  | [] => [a]
  | b :: l' => if Qle_bool (comparefn a b) 0 then a :: l else b :: insert a l'
  end.

Fixpoint sort (l : list A) : list A :=
  match l with
  | [] => []
  | a :: l' => insert a (sort l')
  end.

End Sort.

(** [arr.slice(0, n)] for an integer [n]: a negative [n] counts from the end. *)
Definition slice0 {A : Type} (n : Z) (arr : list A) : list A :=
  let len := Z.of_nat (List.length arr) in
  let final := if (n <? 0)%Z then Z.max (len + n) 0 else Z.min n len in
  firstn (Z.to_nat final) arr.

(** [arr.map((x, index) => f x index)] *)
Fixpoint mapi_from {A B : Type} (i : nat) (f : A -> nat -> B) (arr : list A)
    : list B :=
  match arr with
  | [] => []
  | x :: arr' => f x i :: mapi_from (S i) f arr'
  end.

Definition mapi {A B : Type} (f : A -> nat -> B) (arr : list A) : list B :=
  mapi_from 0 f arr.

(** A number in a template literal (integers only). *)
Definition toString (z : Z) : string := NilZero.string_of_int (Z.to_int z).

(** The company id the [forEach] reads off an item:
    ['submittedByCompanyId' in item ? item.submittedByCompanyId
      : ('uploadedByCompanyId' in item ? item.uploadedByCompanyId : undefined)] *)
Definition companyIdOf (item : Stored.Item) : option string :=
  match Stored.submittedByCompanyId item with
  | Some c => Some c
  | None => Stored.uploadedByCompanyId item
  end.

(** Truthiness of a number: neither zero nor [NaN]. *)
Definition truthyQ (q : Q) : bool := negb (Qeq_bool q 0).

(** One step of the [forEach] that fills [companyVolumes]. *)
Definition addVolume (companyVolumes : Obj.t Q) (item : Stored.Item) : Obj.t Q :=
  match companyIdOf item, Stored.cubicMeters item with
  | Some companyId, Some m3 =>
      if (JS.truthy companyId && truthyQ m3)%bool then
        let cv :=
          match Obj.get companyId companyVolumes with
          | Some v => if truthyQ v then companyVolumes
                      else Obj.set companyId 0 companyVolumes
          | None => Obj.set companyId 0 companyVolumes
          end in
        match Obj.get companyId cv with
        | Some v => Obj.set companyId (v + m3) cv
        | None => cv
        end
      else companyVolumes
  | _, _ => companyVolumes
  end.

Definition companyVolumesOf (allItems : list Stored.Item) : Obj.t Q :=
  fold_left addVolume allItems [].

(** [companyVolumes[company.id] || 0] *)
Definition totalVolumeOf (companyVolumes : Obj.t Q) (company : MockCompany) : Q :=
  match Obj.get (id company) companyVolumes with
  | Some v => if truthyQ v then v else 0
  | None => 0
  end.

Section Ranker.

Variable st : Storage.
Variable role' : UserRole.
Variable topN : Z.

Definition relevantCompanies : list MockCompany :=
  filter (fun c => UserRole_eqb (role c) role') (MOCK_COMPANIES st).

Definition allItems : list Stored.Item :=
  if UserRole_eqb role' CUSTOMER then CUSTOMER_DEMANDS st
  else MANUFACTURER_STOCK st.

(** The array before [.sort]: a company and its [totalVolume], positive. *)
Definition companiesWithVolume : list (MockCompany * Q) :=
  filter (fun cv => negb (Qle_bool (snd cv) 0))
    (map (fun company => (company, totalVolumeOf (companyVolumesOf allItems) company))
         relevantCompanies).

Definition sortedCompanies : list (MockCompany * Q) :=
  slice0 topN
    (sort (fun a b => snd b - snd a) companiesWithVolume).

Definition chartEntry (cv : MockCompany * Q) (index : nat) : ChartEntry :=
  let name := companyName (fst cv) in
  {| label :=
       if (15 <? String.length name)%nat
       then (String.substring 0 12 name ++ "...")%string
       else name;
     value := JS.roundTo 2 (snd cv);
     color :=
       if UserRole_eqb role' CUSTOMER
       then ("text-sky-" ++ toString (700 - Z.of_nat index * 100))%string
       else ("text-emerald-" ++ toString (700 - Z.of_nat index * 100))%string |}.

Definition chartData : list ChartEntry := mapi chartEntry sortedCompanies.

(** [loadTopCompaniesByVolume(role, topN)]: the state it leaves. *)
Definition loadTopCompaniesByVolume (prev : AdminFeatureState) : AdminFeatureState :=
  if UserRole_eqb role' CUSTOMER then
    {| totalDemandsCount := totalDemandsCount prev;
       totalStockItemsCount := totalStockItemsCount prev;
       topCustomersByVolume := Some chartData;
       topManufacturersByVolume := topManufacturersByVolume prev |}
  else
    {| totalDemandsCount := totalDemandsCount prev;
       totalStockItemsCount := totalStockItemsCount prev;
       topCustomersByVolume := topCustomersByVolume prev;
       topManufacturersByVolume := Some chartData |}.

End Ranker.

(** ** Words of the specification about the ranker *)





(** [l1] is an initial part of [l2]. *)
Definition initial {A : Type} (l1 l2 : list A) : Prop :=
  exists rest, l2 = l1 ++ rest.


(** ** Sample data *)

Definition demandOf (status companyId : string) (m3 : Q) : Stored.Item :=
  Stored.mkItem (Some status) (Some m3) (Some companyId) None.

Definition stockOf (status companyId : string) (m3 : Q) : Stored.Item :=
  Stored.mkItem (Some status) (Some m3) None (Some companyId).

(** Three customers with demand volumes 5, 0 and 12 (in two records), two
    manufacturers with equal stock volumes; two demands received and one
    completed. *)
Definition sampleStorage : Storage :=
  {| MOCK_COMPANIES :=
       [ mkCompany "comp-1" "Alpha Timber" CUSTOMER;
         mkCompany "comp-2" "Beta" CUSTOMER;
         mkCompany "comp-3" "Gamma Woodworks International" CUSTOMER;
         mkCompany "comp-4" "Delta Sawmill" MANUFACTURER;
         mkCompany "comp-5" "Epsilon Forestry" MANUFACTURER ];
     CUSTOMER_DEMANDS :=
       [ demandOf DemandStatus.RECEIVED "comp-1" 5;
         demandOf DemandStatus.RECEIVED "comp-3" (7069 # 1000);
         demandOf DemandStatus.COMPLETED "comp-3" (4931 # 1000) ];
     MANUFACTURER_STOCK :=
       [ stockOf StockStatus.AVAILABLE "comp-5" 3;
         stockOf StockStatus.SOLD "comp-4" 3 ] |}.

Definition initialState : AdminFeatureState := mkState None None None None.

(** 2000 received demands and one whose status is no [DemandStatus]. *)
Definition strayStorage : Storage :=
  {| MOCK_COMPANIES := [];
     CUSTOMER_DEMANDS :=
       repeat (demandOf DemandStatus.RECEIVED "comp-1" 1) 2000
       ++ [demandOf "Archived" "comp-1" 1];
     MANUFACTURER_STOCK :=
       repeat (stockOf StockStatus.AVAILABLE "comp-4" 1) 2000
       ++ [stockOf "Archived" "comp-4" 1] |}.

(** Every record carries a status of the enumeration. *)
Definition enumerated (values : list string) (items : list Stored.Item) : Prop :=
  Forall (fun d => statusIn values d = true) items.

(** Some record carries a status outside the enumeration, or none. *)
Definition hasStray (values : list string) (items : list Stored.Item) : Prop :=
  Exists (fun d => statusIn values d = false) items.

(** The exact share of [c] records among [total], in percent. *)
Definition share (c total : nat) : Q :=
  inject_Z (Z.of_nat c) / inject_Z (Z.of_nat total) * 100.



(** ** Auxiliary notions of the proofs *)

(** Occurrences of a key among the statuses that reach [countStatus]. *)
Definition occ (k : string) (ks : list string) : nat :=
  List.length (filter (String.eqb k) ks).

(** The statuses that reach [countStatus] in the two [forEach] loops. *)
Definition demandKeys (items : list Stored.Item) : list string :=
  flat_map (fun d => match Stored.status d with Some k => [k] | None => [] end) items.

Definition stockKeys (items : list Stored.Item) : list string :=
  flat_map (fun s => match Stored.status s with
                     | Some k => if JS.truthy k then [k] else []
                     | None => []
                     end) items.

(** The row of status [k] when there are records: the number of records
    with that status, and its share of all records to one decimal. *)
Definition rowOf (colors : Obj.t string) (items : list Stored.Item) (k : string)
    : StatusSummaryPoint :=
  {| point_status := k;
     count := recordsWith k items;
     percentage := percentOf (recordsWith k items) (List.length items);
     colorClass := colorOf colors k |}.


Section SortKeys.
Context {A : Type} (key : A -> Q).




End SortKeys.

(** * Further code of the pages *)

(** ** The form with its two diameters exchanged *)

Definition swapDiameters (formData : ProductFeatures) : ProductFeatures :=
  {| diameterType := diameterType formData;
     diameterFrom := diameterTo formData;
     diameterTo := diameterFrom formData;
     length' := length' formData;
     quantity := quantity formData;
     cubicMeters := cubicMeters formData;
     notes := notes formData |}.

(** ** Stored listings in full

    A stored demand or stock item with the properties the pages write and
    read; [dashboard] holds those the admin dashboard reads.  A page state
    such as [allDemands] is the parsed list. *)
Module Listing.
Record Item : Type := mkItem {
  id : option string;
  date : option string;
  diameterType : string;
  diameterFrom : string;
  diameterTo : string;
  length' : string;
  quantity : string;
  notes : option string;
  price : option string;
  sustainabilityInfo : option string;
  companyName : option string;
  dashboard : Stored.Item
}.
End Listing.

(** [localStorage] with the listings in full. *)
Record Store : Type := mkStore {
  companies : list MockCompany;
  demands : list Listing.Item;
  stockItems : list Listing.Item
}.

(** What the dashboard functions read of the store. *)
Definition dashboardStorage (s : Store) : Storage :=
  {| MOCK_COMPANIES := companies s;
     CUSTOMER_DEMANDS := map Listing.dashboard (demands s);
     MANUFACTURER_STOCK := map Listing.dashboard (stockItems s) |}.

(** A number through [JSON.stringify] and [JSON.parse]: [NaN] and the
    infinities are written as [null], a missing property stays missing. *)
Definition jsonNumber (x : option JS.number) : option Q :=
  match x with
  | Some (JS.Fin q) => Some q
  | _ => None
  end.

(** ** Submitting the customer form ([handleSubmit])

    [now] is [Date.now()], [iso] is [new Date().toISOString()].  The store
    is taken to be readable and writable (the [catch] branch only logs). *)
Definition newDemand (now : Z) (iso : string) (formData : ProductFeatures)
    : Listing.Item :=
  {| Listing.id := Some ("DEM-" ++ toString now)%string;
     Listing.date := Some iso;
     Listing.diameterType := diameterType formData;
     Listing.diameterFrom := diameterFrom formData;
     Listing.diameterTo := diameterTo formData;
     Listing.length' := length' formData;
     Listing.quantity := quantity formData;
     Listing.notes := notes formData;
     Listing.price := None;
     Listing.sustainabilityInfo := None;
     Listing.companyName := None;
     Listing.dashboard :=
       {| Stored.status := Some DemandStatus.RECEIVED;
          Stored.cubicMeters := jsonNumber (cubicMeters formData);
          Stored.submittedByCompanyId := None;
          Stored.uploadedByCompanyId := None |} |}.

Definition handleSubmitDemand (now : Z) (iso : string) (formData : ProductFeatures)
    (s : Store) : Store :=
  {| companies := companies s;
     demands := newDemand now iso formData :: demands s;
     stockItems := stockItems s |}.

(** ** The manufacturer form *)

(** The form state of the stock page: a [StockItem] without id, date and
    status. *)
Record StockForm : Type := mkStockForm {
  features : ProductFeatures;
  price : string;
  sustainabilityInfo : string
}.

Definition newStockItem (now : Z) (iso : string) (formData : StockForm)
    : Listing.Item :=
  {| Listing.id := Some ("STK-" ++ toString now)%string;
     Listing.date := Some iso;
     Listing.diameterType := diameterType (features formData);
     Listing.diameterFrom := diameterFrom (features formData);
     Listing.diameterTo := diameterTo (features formData);
     Listing.length' := length' (features formData);
     Listing.quantity := quantity (features formData);
     Listing.notes := notes (features formData);
     Listing.price := Some (price formData);
     Listing.sustainabilityInfo := Some (sustainabilityInfo formData);
     Listing.companyName := None;
     Listing.dashboard :=
       {| Stored.status := Some StockStatus.AVAILABLE;
          Stored.cubicMeters := jsonNumber (cubicMeters (features formData));
          Stored.submittedByCompanyId := None;
          Stored.uploadedByCompanyId := None |} |}.

Definition handleSubmitStock (now : Z) (iso : string) (formData : StockForm)
    (s : Store) : Store :=
  {| companies := companies s;
     demands := demands s;
     stockItems := newStockItem now iso formData :: stockItems s |}.

(** [String.prototype.trim]: white space off both ends. *)
Fixpoint trimEnd (s : string) : string :=
  match s with
  | EmptyString => EmptyString
  | String c r =>
      match trimEnd r with
      | EmptyString => if JS.isWhiteSpace c then EmptyString else String c EmptyString
      | r' => String c r'
      end
  end.

Definition trim (s : string) : string := trimEnd (JS.trimStart s).

(** [s && s.trim().length >= 5] for an optional text. *)
Definition longEnough (s : option string) : bool :=
  match s with
  | Some s => (JS.truthy s && (5 <=? String.length (trim s))%nat)%bool
  | None => false
  end.

Section StockFormChecks.
Variable formData : StockForm.

Definition dimensionsGiven : bool :=
  (JS.truthy (diameterType (features formData))
   && JS.truthy (diameterFrom (features formData))
   && JS.truthy (diameterTo (features formData))
   && JS.truthy (length' (features formData)))%bool.

Definition isFormDataSufficientForImage : bool := dimensionsGiven.

Definition isFormDataSufficientForAnalysis : bool :=
  (longEnough (notes (features formData))
   || longEnough (Some (sustainabilityInfo formData))
   || dimensionsGiven)%bool.

Definition isFormDataSufficientForPriceSuggestion : bool :=
  (JS.truthy (diameterType (features formData))
   && JS.truthy (diameterFrom (features formData))
   && JS.truthy (diameterTo (features formData))
   && JS.truthy (length' (features formData))
   && JS.truthy (quantity (features formData)))%bool.

End StockFormChecks.

(** White space only. *)
Fixpoint blank (s : string) : bool :=
  match s with
  | EmptyString => true
  | String c r => (JS.isWhiteSpace c && blank r)%bool
  end.

(** ** The admin's form for a company ([handleCompanyActionFormSubmit]) *)

Module CompanyAction.

(** [Partial<ProductFeatures & { price?, sustainabilityInfo? }>] *)
Record FormData : Type := mkFormData {
  diameterType : option string;
  diameterFrom : option string;
  diameterTo : option string;
  length' : option string;
  quantity : option string;
  notes : option string;
  price : option string;
  sustainabilityInfo : option string
}.

Inductive Kind : Type := demand | stock.

Inductive Outcome : Type :=
| NothingSelected
| FormIncomplete
| Saved (item : Listing.Item).

End CompanyAction.

(** Truthiness of an optional string. *)
Definition truthyOpt (s : option string) : bool :=
  match s with Some s => JS.truthy s | None => false end.

(** [s || d] *)
Definition orDefault (s : option string) (d : string) : string :=
  match s with
  | Some s => if JS.truthy s then s else d
  | None => d
  end.

(** [x || 0] on a number: zero and [NaN] are falsy. *)
Definition orZero (x : JS.number) : JS.number :=
  match x with
  | JS.NaN => JS.Fin 0
  | JS.Fin q => if truthyQ q then x else JS.Fin 0
  | other => other
  end.

(** The [cubicMeters] the admin's form stores:
    [parseFloat(((Math.PI * Math.pow(avgDiameter / 2, 2) * len * qty) || 0).toFixed(3))] *)
Definition adminCubicMeters (fd : CompanyAction.FormData) : JS.number :=
  let avgDiameter :=
    JS.div (JS.div (JS.add (JS.parseFloat (orDefault (CompanyAction.diameterFrom fd) "0"))
                           (JS.parseFloat (orDefault (CompanyAction.diameterTo fd) "0")))
                   (JS.Fin 2))
           (JS.Fin 100) in
  let len := JS.parseFloat (orDefault (CompanyAction.length' fd) "0") in
  let qty := JS.parseInt (orDefault (CompanyAction.quantity fd) "0") in
  let cubicMeters :=
    orZero (JS.mul (JS.mul (JS.mul (JS.Fin JS.PI) (JS.pow2 (JS.div avgDiameter (JS.Fin 2))))
                           len)
                   qty) in
  JS.toFixed_parsed 3 cubicMeters.

Section CompanyActionSubmit.

(** [Date.now()], [new Date().toISOString()], and the note of the item when
    the form has none (a translated text naming the company). *)
Variable now : Z.
Variable iso : string.
Variable defaultNotes : CompanyAction.Kind -> MockCompany -> string.

Definition companyItem (kind : CompanyAction.Kind) (company : MockCompany)
    (fd : CompanyAction.FormData) : Listing.Item :=
  {| Listing.id :=
       Some (match kind with
             | CompanyAction.demand => "DEM-ADM-" ++ toString now
             | CompanyAction.stock => "STK-ADM-" ++ toString now
             end)%string;
     Listing.date := Some iso;
     Listing.diameterType := orDefault (CompanyAction.diameterType fd) "";
     Listing.diameterFrom := orDefault (CompanyAction.diameterFrom fd) "";
     Listing.diameterTo := orDefault (CompanyAction.diameterTo fd) "";
     Listing.length' := orDefault (CompanyAction.length' fd) "";
     Listing.quantity := orDefault (CompanyAction.quantity fd) "";
     Listing.notes :=
       Some (orDefault (CompanyAction.notes fd) (defaultNotes kind company));
     Listing.price :=
       match kind with
       | CompanyAction.demand => None
       | CompanyAction.stock => CompanyAction.price fd
       end;
     Listing.sustainabilityInfo :=
       match kind with
       | CompanyAction.demand => None
       | CompanyAction.stock => CompanyAction.sustainabilityInfo fd
       end;
     Listing.companyName := Some (companyName company);
     Listing.dashboard :=
       {| Stored.status :=
            Some (match kind with
                  | CompanyAction.demand => DemandStatus.RECEIVED
                  | CompanyAction.stock => StockStatus.AVAILABLE
                  end);
          Stored.cubicMeters := jsonNumber (Some (adminCubicMeters fd));
          Stored.submittedByCompanyId :=
            match kind with
            | CompanyAction.demand => Some (id company)
            | CompanyAction.stock => None
            end;
          Stored.uploadedByCompanyId :=
            match kind with
            | CompanyAction.demand => None
            | CompanyAction.stock => Some (id company)
            end |} |}.

(** The submit handler on [selectedCompanyForAction], [showCompanyActionForm]
    and [companyActionFormData]: what it reports, and the store it leaves. *)
Definition handleCompanyActionFormSubmit
    (selected : option MockCompany) (show : option CompanyAction.Kind)
    (fd : CompanyAction.FormData) (s : Store) : CompanyAction.Outcome * Store :=
  match selected, show with
  | Some company, Some kind =>
      if (truthyOpt (CompanyAction.diameterType fd)
          && truthyOpt (CompanyAction.diameterFrom fd)
          && truthyOpt (CompanyAction.diameterTo fd)
          && truthyOpt (CompanyAction.length' fd)
          && truthyOpt (CompanyAction.quantity fd))%bool
      then
        let item := companyItem kind company fd in
        (CompanyAction.Saved item,
         match kind with
         | CompanyAction.demand =>
             {| companies := companies s;
                demands := item :: demands s;
                stockItems := stockItems s |}
         | CompanyAction.stock =>
             {| companies := companies s;
                demands := demands s;
                stockItems := item :: stockItems s |}
         end)
      else (CompanyAction.FormIncomplete, s)
  | _, _ => (CompanyAction.NothingSelected, s)
  end.

End CompanyActionSubmit.

(** The form of the customer page holding the same inputs. *)
Definition featuresOf (fd : CompanyAction.FormData) : ProductFeatures :=
  {| diameterType := orDefault (CompanyAction.diameterType fd) "";
     diameterFrom := orDefault (CompanyAction.diameterFrom fd) "";
     diameterTo := orDefault (CompanyAction.diameterTo fd) "";
     length' := orDefault (CompanyAction.length' fd) "";
     quantity := orDefault (CompanyAction.quantity fd) "";
     cubicMeters := None;
     notes := CompanyAction.notes fd |}.



Definition sampleStore : Store :=
  {| companies := MOCK_COMPANIES sampleStorage;
     demands := [];
     stockItems := [] |}.

Definition sampleCompanyForm : CompanyAction.FormData :=
  CompanyAction.mkFormData (Some "mid"%string) (Some "10"%string) (Some "20"%string)
    (Some "4"%string) (Some "100"%string) None None None.

(** ** Charts and lookups of the admin pages

    A page holds the parsed list in its state ([allDemands],
    [allStockItems]), [None] while it is undefined. *)

(** A count as a chart value. *)
Definition ofCount (n : nat) : Q := inject_Z (Z.of_nat n).

Section PageCharts.

(** The translation function [t] of the locale context, on a key. *)
Variable t : string -> string.

(** [DIAMETER_TYPE_OPTIONS] of the locales module: [value] and [labelKey]
    of each option. *)
Variable DIAMETER_TYPE_OPTIONS : list (string * string).

(** [getDemandStatusChartData] of the matchmaking page. *)
Definition getDemandStatusChartData (allDemands : option (list Listing.Item))
    : list ChartEntry :=
  match allDemands with
  | None => []
  | Some items =>
      let counts := demandCounts (map Listing.dashboard items) in
      [ mkEntry (t "demandStatus_RECEIVED")
                (ofCount (countAt counts DemandStatus.RECEIVED)) "text-sky-500";
        mkEntry (t "demandStatus_PROCESSING")
                (ofCount (countAt counts DemandStatus.PROCESSING)) "text-amber-500";
        mkEntry (t "demandStatus_COMPLETED")
                (ofCount (countAt counts DemandStatus.COMPLETED)) "text-green-500";
        mkEntry (t "demandStatus_CANCELLED")
                (ofCount (countAt counts DemandStatus.CANCELLED)) "text-red-500" ]
  end.

(** [getStockStatusChartData] of the stock management page. *)
Definition getStockStatusChartData (allStockItems : option (list Listing.Item))
    : list ChartEntry :=
  match allStockItems with
  | None => []
  | Some items =>
      let counts := stockCounts (map Listing.dashboard items) in
      [ mkEntry (t "stockStatus_AVAILABLE")
                (ofCount (countAt counts StockStatus.AVAILABLE)) "text-green-600";
        mkEntry (t "stockStatus_RESERVED")
                (ofCount (countAt counts StockStatus.RESERVED)) "text-yellow-500";
        mkEntry (t "stockStatus_SOLD")
                (ofCount (countAt counts StockStatus.SOLD)) "text-red-600" ]
  end.

(** The [counts] object of [getStockDiameterTypeChartData]: a zero for
    every option value, then one more for every item whose diameter type
    is not empty and is a key. *)
Definition diameterTypeCounts (items : list Listing.Item) : Obj.t nat :=
  fold_left
    (fun counts item =>
       if JS.truthy (Listing.diameterType item)
       then countStatus counts (Listing.diameterType item)
       else counts)
    items
    (fold_left (fun counts opt => Obj.set (fst opt) 0%nat counts)
               DIAMETER_TYPE_OPTIONS []).

(** The colour by [DIAMETER_TYPE_OPTIONS.indexOf(opt)]; the options are
    distinct objects, so that is the position of [opt]. *)
Definition diameterTypeColor (index : nat) : string :=
  match index with
  | 0%nat => "text-sky-400"
  | 1%nat => "text-teal-400"
  | _ => "text-fuchsia-400"
  end.

(** [getStockDiameterTypeChartData] of the stock management page. *)
Definition getStockDiameterTypeChartData (allStockItems : option (list Listing.Item))
    : list ChartEntry :=
  match allStockItems with
  | None => []
  | Some items =>
      let counts := diameterTypeCounts items in
      mapi (fun opt index =>
              mkEntry (t (snd opt)) (ofCount (countAt counts (fst opt)))
                      (diameterTypeColor index))
           DIAMETER_TYPE_OPTIONS
  end.

End PageCharts.

(** [s.includes(t)]: [t] occurs in [s]. *)
Fixpoint includes (s t : string) : bool :=
  match s with
  | EmptyString => JS.startsWith t EmptyString
  | String _ r => (JS.startsWith t s || includes r t)%bool
  end.

(** What a lookup by id returns: an item, [undefined], or the [TypeError]
    of calling [includes] on a missing id. *)
Inductive Lookup : Type :=
| Found (item : Listing.Item)
| NotFound
| TypeError.

(** [allDemands.find(d => d.id === id || d.id.includes(id) || id.includes(d.id))] *)
Fixpoint findDemand (id : string) (items : list Listing.Item) : Lookup :=
  match items with
  | [] => NotFound
  | d :: rest =>
      match Listing.id d with
      | Some did =>
          if (String.eqb did id || includes did id || includes id did)%bool
          then Found d else findDemand id rest
      | None => TypeError
      end
  end.

Definition getDemandById (allDemands : option (list Listing.Item)) (id : string)
    : Lookup :=
  match allDemands with
  | None => NotFound
  | Some items => findDemand id items
  end.

(** The test of [getStockById]:
    [s.id === id || (s.id && s.id.includes(id)) || (s.id && id.includes(s.id))] *)
Definition stockIdMatches (id : string) (s : Listing.Item) : bool :=
  match Listing.id s with
  | Some sid =>
      (String.eqb sid id
       || (JS.truthy sid && includes sid id)
       || (JS.truthy sid && includes id sid))%bool
  | None => false
  end.

Definition getStockById (allStockItems : option (list Listing.Item)) (id : string)
    : option Listing.Item :=
  match allStockItems with
  | None => None
  | Some items => find (stockIdMatches id) items
  end.




(** The number of items with the diameter type [k]. *)
Definition itemsOfType (k : string) (items : list Listing.Item) : nat :=
  List.length (filter (fun item => String.eqb (Listing.diameterType item) k) items).

(** [t] occurs in [s]. *)
Definition occursIn (t s : string) : Prop :=
  exists a b, s = (a ++ t ++ b)%string.

(** The diameter types that reach [countStatus] in
    [getStockDiameterTypeChartData]. *)
Definition typeKeys (items : list Listing.Item) : list string :=
  flat_map (fun item => if JS.truthy (Listing.diameterType item)
                        then [Listing.diameterType item] else [])
           items.

(** The number of items an option of the chart stands for. *)
Definition itemsOfOption (opt : string * string) (items : list Listing.Item) : nat :=
  if JS.truthy (fst opt) then itemsOfType (fst opt) items else 0%nat.

(** Two ids one of which occurs in the other (equal ids among them). *)
Definition relatedIds (id1 id2 : string) : Prop :=
  occursIn id1 id2 \/ occursIn id2 id1.

(** The item carries exactly the id [id]. *)
Definition hasId (id : string) (item : Listing.Item) : bool :=
  match Listing.id item with
  | Some i => String.eqb i id
  | None => false
  end.

(** The item carries an id. *)
Definition hasSomeId (item : Listing.Item) : bool :=
  match Listing.id item with Some _ => true | None => false end.

(** ** The bar chart component ([SimpleBarChart])

    What the component computes for its SVG: the height of the view box
    and, for every data point, the place and size of its bar and the texts
    beside it.  The title and the styling classes of the texts are left
    out. *)
Module BarChart.

Inductive ShowValues : Type := absolute | percentage | none.

Record Props : Type := mkProps {
  data : option (list ChartEntry);
  barHeight : Q;
  gap : Q;
  labelWidthPx : Q;
  showValues : ShowValues;
  totalForPercentage : option Q
}.

(** The props with the defaults of the component. *)
Definition withDefaults (data : list ChartEntry) (showValues : ShowValues)
    (totalForPercentage : option Q) : Props :=
  mkProps (Some data) 40 15 120 showValues totalForPercentage.

(** The text of a value: the number [toLocaleString] prints, the
    percentage that [toFixed(1)] prints before the percent sign, or
    nothing. *)
Inductive Display : Type :=
| Absolute (v : Q)
| Percent (p : Q)
| Blank.

Record Bar : Type := mkBar {
  y : Q;
  labelText : string;
  displayValue : Display;
  barX : Q;
  barRectWidthUnits : Q;
  className : string;
  (** the value text beside or inside the bar: its [x], and whether it is
      anchored at its end (inside the bar) *)
  valueText : option (Q * bool)
}.

Inductive Rendered : Type :=
| NoData
| ConfigError
| Chart (viewBoxHeight : Q) (bars : list Bar).

Definition VIEWBOX_TOTAL_WIDTH_UNITS : Q := 1000.
Definition END_PADDING_UNITS : Q := 20.
Definition valueTextPaddingUnits : Q := 10.

Definition max2 (a b : Q) : Q := if Qle_bool a b then b else a.

(** [Math.max(...data.map(d => d.value), 0)] *)
Definition maxValue (data : list ChartEntry) : Q :=
  fold_right max2 0 (map value data).

Section Render.
Variable props : Props.

Definition labelAreaWidthUnits : Q :=
  (labelWidthPx props / 500) * VIEWBOX_TOTAL_WIDTH_UNITS.

Definition barAreaWidthUnits : Q :=
  VIEWBOX_TOTAL_WIDTH_UNITS - labelAreaWidthUnits - END_PADDING_UNITS.

(** The label, shortened when it is longer than a fifteenth of the label
    area: [substring] takes a negative end as 0. *)
Definition shownLabel (label : string) : string :=
  if negb (Qle_bool (inject_Z (Z.of_nat (String.length label)))
                    (labelAreaWidthUnits / 15))
  then (String.substring 0 (Z.to_nat (Qfloor (labelAreaWidthUnits / 15) - 3)) label
        ++ "...")%string
  else label.

Definition display (v : Q) : Display :=
  match showValues props with
  | absolute => Absolute v
  | percentage =>
      match totalForPercentage props with
      | Some total =>
          if negb (Qle_bool total 0)
          then Percent (JS.roundTo 1 (v / total * 100))
          else Percent (0 # 10)
      | None => Percent (0 # 10)
      end
  | none => Blank
  end.

Definition bar (maxV : Q) (item : ChartEntry) (index : nat) : Bar :=
  let width :=
    if negb (Qle_bool maxV 0) then (value item / maxV) * barAreaWidthUnits else 0 in
  let showTextInsideBar :=
    negb (Qle_bool width (VIEWBOX_TOTAL_WIDTH_UNITS * (15 # 100))) in
  {| y := inject_Z (Z.of_nat index) * (barHeight props + gap props);
     labelText := shownLabel (label item);
     displayValue := display (value item);
     barX := labelAreaWidthUnits;
     barRectWidthUnits := width;
     className :=
       if JS.truthy (color item) then color item else "fill-current text-cyan-500";
     valueText :=
       match showValues props with
       | none => None
       | _ =>
           if negb (Qle_bool (value item) 0)
           then Some (if showTextInsideBar
                      then labelAreaWidthUnits + width - valueTextPaddingUnits
                      else labelAreaWidthUnits + width + valueTextPaddingUnits,
                      showTextInsideBar)
           else None
       end |}.

Definition render : Rendered :=
  match data props with
  | None | Some [] => NoData
  | Some items =>
      let maxV := maxValue items in
      let chartHeightViewBox :=
        inject_Z (Z.of_nat (List.length items)) * (barHeight props + gap props)
        - gap props in
      match showValues props, totalForPercentage props with
      | percentage, None => ConfigError
      | _, _ =>
          Chart (if negb (Qle_bool chartHeightViewBox 0)
                 then chartHeightViewBox else barHeight props)
                (mapi (bar maxV) items)
      end
  end.

End Render.
End BarChart.

(** ** The charts of the dashboard *)

Section DashboardCharts.

(** [getTranslatedDemandStatus(status, t)] and
    [getTranslatedStockStatus(status, t)] of the locales module. *)
Variable translatedDemandStatus : string -> string.
Variable translatedStockStatus : string -> string.

(** [state.orderStatusSummary?.map(...) || []] *)
Definition demandChartData (orderStatusSummary : option (list StatusSummaryPoint))
    : list ChartEntry :=
  match orderStatusSummary with
  | Some rows =>
      map (fun item =>
             mkEntry (translatedDemandStatus (point_status item))
                     (ofCount (count item))
                     (colorOf DemandStatusColorMap (point_status item)))
          rows
  | None => []
  end.

Definition stockChartData (stockStatusSummary : option (list StatusSummaryPoint))
    : list ChartEntry :=
  match stockStatusSummary with
  | Some rows =>
      map (fun item =>
             mkEntry (translatedStockStatus (point_status item))
                     (ofCount (count item))
                     (colorOf StockStatusColorMap (point_status item)))
          rows
  | None => []
  end.

(** The demand chart of the dashboard once the summary is loaded:
    [<SimpleBarChart data={demandChartData} showValues="percentage"
       totalForPercentage={state.totalDemandsCount} />] *)
Definition demandStatusChart (st : Storage) (prev : AdminFeatureState)
    : BarChart.Rendered :=
  let loaded := loadOrderStatusSummary st prev in
  BarChart.render
    (BarChart.withDefaults (demandChartData (Some (fst loaded)))
       BarChart.percentage
       (option_map ofCount (totalDemandsCount (snd loaded)))).

Definition stockStatusChart (st : Storage) (prev : AdminFeatureState)
    : BarChart.Rendered :=
  let loaded := loadStockStatusSummary st prev in
  BarChart.render
    (BarChart.withDefaults (stockChartData (Some (fst loaded)))
       BarChart.percentage
       (option_map ofCount (totalStockItemsCount (snd loaded)))).

End DashboardCharts.

(** [<SimpleBarChart data={state.topCustomersByVolume} showValues="absolute" />] *)
Definition topCompaniesChart (st : Storage) (r : UserRole) (topN : Z)
    : BarChart.Rendered :=
  BarChart.render (BarChart.withDefaults (chartData st r topN) BarChart.absolute None).

(** The bar shows the percentage of the summary row, and a value text
    exactly when the row counts at least one record. *)
Definition showsRow (b : BarChart.Bar) (row : StatusSummaryPoint) : Prop :=
  (exists p, BarChart.displayValue b = BarChart.Percent p /\ p == percentage row)
  /\ (BarChart.valueText b = None <-> count row = 0%nat).

(** ** More sample data *)

Definition sampleStockForm : StockForm :=
  mkStockForm (mkProductFeatures "mid" "10" "20" "4" "5" None None) "" "".

(** A form without dimensions, a short note and a blank sustainability text. *)
Definition sparseStockForm : StockForm :=
  mkStockForm (mkProductFeatures "" "" "" "" "" None (Some "ok"%string)) "   " "".

(** The sample companies and one demand the admin saved for the first. *)
Definition filledStore : Store :=
  snd (handleCompanyActionFormSubmit 1700000000000 "2023-11-14T22:13:20.000Z"
         (fun _ _ => "by admin"%string)
         (Some (mkCompany "comp-1" "Alpha Timber" CUSTOMER))
         (Some CompanyAction.demand) sampleCompanyForm sampleStore).

Definition twoBars : list ChartEntry :=
  [ mkEntry "Alpha Timber" 5 "text-sky-700"; mkEntry "Beta" 12 "" ].

(** ** [Number.prototype.toFixed] as a string

    The decimal string of a finite number with [d] decimals (the code uses
    1, 2 and 3): a minus for a negative number, the digits of the nearest
    integer [n] to [|x| * 10^d] with a point before the last [d].  From
    [10^21] on [toFixed] prints like [toString]; that is not modelled. *)

(** The character of a decimal digit. *)
Definition digitChar (v : Z) : ascii := ascii_of_N (Z.to_N (48 + v)).

Fixpoint digitString (ds : list Z) : string :=
  match ds with
  | [] => EmptyString
  | v :: ds' => String (digitChar v) (digitString ds')
  end.

(** The [k] decimal digits of [n] below [10^k], the first one first. *)
Fixpoint lastDigits (k : nat) (n : Z) : list Z :=
  match k with
  | O => []
  | S k' => (n / 10 ^ Z.of_nat k')%Z :: lastDigits k' (n mod 10 ^ Z.of_nat k')%Z
  end.

(** Without leading zeros, but never empty. *)
Fixpoint stripZeros (ds : list Z) : list Z :=
  match ds with
  | v :: ((_ :: _) as ds') => if (v =? 0)%Z then stripZeros ds' else ds
  | _ => ds
  end.

(** The decimal digits of a natural number [n]. *)
Definition naturalDigits (n : Z) : list Z :=
  stripZeros (lastDigits (S (Z.to_nat (Z.log2 n))) n).

Definition toFixed (d : nat) (x : Q) : option string :=
  if Qle_bool (inject_Z (10 ^ 21)) (Qabs x) then None
  else
    let minus := negb (Qle_bool 0 x) in
    let n := JS.nearest d (Qabs x) in
    let whole := digitString (naturalDigits (n / JS.pow10 d)%Z) in
    let fraction := digitString (lastDigits d (n mod JS.pow10 d)%Z) in
    let m := match d with
             | O => whole
             | S _ => (whole ++ "." ++ fraction)%string
             end in
    Some (if minus then ("-" ++ m)%string else m).

(** A list of decimal digits. *)
Definition decimalDigits (ds : list Z) : Prop :=
  Forall (fun v => (0 <= v < 10)%Z) ds.

(** * Properties *)

(** ** Rounding to [d] decimals *)

Section Rounding.

Lemma pow10_pos (d : nat) : (0 < JS.pow10 d)%Z.
Proof. unfold JS.pow10. apply Z.pow_pos_nonneg; lia. Qed.

Lemma Qmake_pow10 (n : Z) (d : nat) :
  Qmake n (Z.to_pos (JS.pow10 d)) == inject_Z n / inject_Z (JS.pow10 d).
Proof.
  rewrite Qmake_Qdiv. rewrite Z2Pos.id by apply pow10_pos. reflexivity.
Qed.

Lemma inject_pow10_pos (d : nat) : 0 < inject_Z (JS.pow10 d).
Proof.
  change 0 with (inject_Z 0). rewrite <- Zlt_Qlt. apply pow10_pos.
Qed.

(** [nearest] is within a half of the scaled value. *)
Lemma nearest_bounds (d : nat) (x : Q) :
  inject_Z (JS.nearest d x) <= x * inject_Z (JS.pow10 d) + (1 # 2)
  /\ x * inject_Z (JS.pow10 d) + (1 # 2) < inject_Z (JS.nearest d x) + 1.
Proof.
  unfold JS.nearest. split.
  - apply Qfloor_le.
  - pose proof (Qlt_floor (x * inject_Z (JS.pow10 d) + (1 # 2))) as H.
    rewrite inject_Z_plus in H. exact H.
Qed.

Lemma nearest_nonneg (d : nat) (x : Q) : 0 <= x -> (0 <= JS.nearest d x)%Z.
Proof.
  intros Hx. unfold JS.nearest.
  change 0%Z with (Qfloor 0). apply Qfloor_resp_le.
  assert (0 <= x * inject_Z (JS.pow10 d)).
  { apply Qmult_le_0_compat; [exact Hx|]. apply Qlt_le_weak, inject_pow10_pos. }
  generalize dependent (x * inject_Z (JS.pow10 d)). intros; lra.
Qed.

Lemma nearest_mono (d : nat) (x y : Q) :
  x <= y -> (JS.nearest d x <= JS.nearest d y)%Z.
Proof.
  intros Hxy. unfold JS.nearest. apply Qfloor_resp_le.
  assert (x * inject_Z (JS.pow10 d) <= y * inject_Z (JS.pow10 d)).
  { apply Qmult_le_compat_r; [exact Hxy|]. apply Qlt_le_weak, inject_pow10_pos. }
  generalize dependent (x * inject_Z (JS.pow10 d)).
  generalize dependent (y * inject_Z (JS.pow10 d)). intros; lra.
Qed.

Lemma nearest_comp (d : nat) (x y : Q) :
  x == y -> JS.nearest d x = JS.nearest d y.
Proof.
  intros Hxy. unfold JS.nearest. apply Qfloor_comp. rewrite Hxy. reflexivity.
Qed.

(** Equal values round to the same fraction, numerator and denominator. *)
Lemma roundTo_comp (d : nat) (x y : Q) : x == y -> JS.roundTo d x = JS.roundTo d y.
Proof.
  intros Hxy. unfold JS.roundTo.
  assert (Hb : Qle_bool 0 x = Qle_bool 0 y).
  { destruct (Qle_bool 0 x) eqn:Hx, (Qle_bool 0 y) eqn:Hy; try reflexivity.
    - rewrite Qle_bool_iff in Hx. rewrite Hxy in Hx.
      rewrite <- Qle_bool_iff in Hx. congruence.
    - rewrite Qle_bool_iff in Hy. rewrite <- Hxy in Hy.
      rewrite <- Qle_bool_iff in Hy. congruence. }
  rewrite Hb. destruct (Qle_bool 0 y).
  - now rewrite (nearest_comp d x y Hxy).
  - assert (H' : - x == - y) by (rewrite Hxy; reflexivity).
    now rewrite (nearest_comp d _ _ H').
Qed.

(** Half a unit around a scaled value, divided back. *)
Lemma scaled_error (P n x : Q) :
  0 < P -> n <= x * P + (1 # 2) -> x * P + (1 # 2) < n + 1 ->
  - (1 / (2 * P)) <= n / P - x <= 1 / (2 * P).
Proof.
  intros HP Hlo Hhi.
  assert (HhalfP : 1 / (2 * P) == (1 # 2) / P) by (field; lra).
  assert (E : n / P - x == (n - x * P) / P) by (field; lra).
  rewrite HhalfP, E. split.
  - apply Qle_shift_div_l; [exact HP|].
    assert (E2 : - ((1 # 2) / P) * P == - (1 # 2)) by (field; lra).
    rewrite E2. lra.
  - apply Qle_shift_div_r; [exact HP|].
    assert (E2 : (1 # 2) / P * P == (1 # 2)) by (field; lra).
    rewrite E2. lra.
Qed.

(** The rounded value is at most half a unit of the last decimal away. *)
Lemma roundTo_error (d : nat) (x : Q) :
  Qabs (JS.roundTo d x - x) <= 1 / (2 * inject_Z (JS.pow10 d)).
Proof.
  pose proof (inject_pow10_pos d) as HP.
  apply Qabs_Qle_condition.
  unfold JS.roundTo. destruct (Qle_bool 0 x) eqn:Hx.
  - destruct (nearest_bounds d x) as [Hlo Hhi].
    rewrite Qmake_pow10. now apply scaled_error.
  - destruct (nearest_bounds d (- x)) as [Hlo Hhi].
    rewrite Qmake_pow10, inject_Z_opp.
    pose proof (scaled_error _ _ _ HP Hlo Hhi) as [H1 H2].
    generalize dependent (inject_Z (JS.pow10 d)). intros P HP Hlo Hhi H1 H2.
    assert (E : - inject_Z (JS.nearest d (- x)) / P - x
                == - (inject_Z (JS.nearest d (- x)) / P - - x)) by (field; lra).
    rewrite E. split; lra.
Qed.


End Rounding.

Section RoundingOrder.

Lemma roundTo_nonneg (d : nat) (x : Q) : 0 <= x -> 0 <= JS.roundTo d x.
Proof.
  intros Hx. unfold JS.roundTo.
  rewrite <- Qle_bool_iff in Hx. rewrite Hx. rewrite Qle_bool_iff in Hx.
  unfold Qle; simpl. pose proof (nearest_nonneg d x Hx). lia.
Qed.

Lemma roundTo_nonpos (d : nat) (x : Q) : x <= 0 -> JS.roundTo d x <= 0.
Proof.
  intros Hx. unfold JS.roundTo. destruct (Qle_bool 0 x) eqn:H0.
  - rewrite Qle_bool_iff in H0.
    assert (E : x == 0) by lra.
    rewrite (nearest_comp d x 0 E). unfold Qle; simpl.
    assert (JS.nearest d 0 = 0%Z) by reflexivity. lia.
  - assert (Hn : 0 <= - x) by lra.
    pose proof (nearest_nonneg d (- x) Hn). unfold Qle; simpl. lia.
Qed.

(** Rounding keeps the order. *)
Lemma roundTo_mono (d : nat) (x y : Q) : x <= y -> JS.roundTo d x <= JS.roundTo d y.
Proof.
  intros Hxy.
  destruct (Qlt_le_dec x 0) as [Hx | Hx], (Qlt_le_dec y 0) as [Hy | Hy].
  - unfold JS.roundTo.
    assert (Hbx : Qle_bool 0 x = false).
    { destruct (Qle_bool 0 x) eqn:E; [rewrite Qle_bool_iff in E; lra | reflexivity]. }
    assert (Hby : Qle_bool 0 y = false).
    { destruct (Qle_bool 0 y) eqn:E; [rewrite Qle_bool_iff in E; lra | reflexivity]. }
    rewrite Hbx, Hby.
    assert (Hneg : - y <= - x) by lra.
    pose proof (nearest_mono d _ _ Hneg).
    unfold Qle; simpl. apply Z.mul_le_mono_nonneg_r; lia.
  - apply Qle_trans with 0; [apply roundTo_nonpos; lra | apply roundTo_nonneg; lra].
  - lra.
  - unfold JS.roundTo.
    assert (Hbx : Qle_bool 0 x = true) by (apply Qle_bool_iff; lra).
    assert (Hby : Qle_bool 0 y = true) by (apply Qle_bool_iff; lra).
    rewrite Hbx, Hby.
    pose proof (nearest_mono d _ _ Hxy).
    unfold Qle; simpl. apply Z.mul_le_mono_nonneg_r; lia.
Qed.

End RoundingOrder.

(** ** The parsers on plain inputs *)

Section Parsers.

(** A decimal digit is no white space, sign, point or letter. *)
Lemma digit_char (c : ascii) :
  JS.isDigit c = true ->
  JS.isWhiteSpace c = false
  /\ Ascii.eqb c "-" = false /\ Ascii.eqb c "+" = false
  /\ Ascii.eqb c "." = false /\ Ascii.eqb c "I" = false
  /\ Ascii.eqb c "x" = false /\ Ascii.eqb c "X" = false.
Proof.
  destruct c as [[] [] [] [] [] [] [] []]; vm_compute; intros H;
    try discriminate H; repeat split.
Qed.

Lemma isDigit_digit_in (c : ascii) :
  JS.isDigit c = false -> JS.digit_in 10 c = None.
Proof. unfold JS.isDigit. now destruct (JS.digit_in 10 c). Qed.

Lemma digits_no_head (c : ascii) (r : string) :
  JS.isDigit c = false -> JS.digits 10 (String c r) = ([], String c r).
Proof. intros H. simpl. now rewrite (isDigit_digit_in c H). Qed.


Lemma digits_head (c : ascii) (r : string) :
  JS.isDigit c = true ->
  exists v ds rest, JS.digits 10 (String c r) = (v :: ds, rest).
Proof.
  intros Hc. simpl. unfold JS.isDigit in Hc.
  destruct (JS.digit_in 10 c) as [v|]; [|discriminate].
  destruct (JS.digits 10 r) as [ds rest]. now exists v, ds, rest.
Qed.



(** With a number at its head the field does parse: [numeric_head] is
    exactly the condition under which [parseFloat] returns a number. *)
Lemma parseFloat_numeric (s : string) :
  JS.numeric_head s = true -> JS.parseFloat s <> JS.NaN.
Proof.
  unfold JS.numeric_head, JS.parseFloat.
  destruct (JS.signOf (JS.trimStart s)) as [minus r].
  destruct (JS.startsWith "Infinity" r); [destruct minus; discriminate|].
  cbn [orb]. destruct r as [|c r']; [discriminate|].
  intros H. apply orb_true_iff in H as [Hc | Hdot].
  - destruct (digits_head c r' Hc) as (v & ds & rest & Hd).
    unfold JS.unsignedDecimal. rewrite Hd.
    destruct rest as [|c2 r2]; [discriminate|].
    destruct (Ascii.eqb c2 "."); [|discriminate].
    destruct (JS.digits 10 r2) as [fp r3]. discriminate.
  - apply andb_true_iff in Hdot as [Ec Hc'].
    apply Ascii.eqb_eq in Ec. subst c.
    destruct r' as [|c' r'']; [discriminate|].
    destruct (digits_head c' r'' Hc') as (v & ds & rest & Hd).
    unfold JS.unsignedDecimal.
    rewrite (digits_no_head "." (String c' r'') eq_refl).
    rewrite Ascii.eqb_refl, Hd. discriminate.
Qed.


(** The parsers on some inputs of a form field. *)
Example parseFloat_examples :
  JS.num_eq (JS.parseFloat "  12.5e1x") (JS.Fin 125)
  /\ JS.num_eq (JS.parseFloat ".5") (JS.Fin (1 # 2))
  /\ JS.num_eq (JS.parseFloat "1,5") (JS.Fin 1)
  /\ JS.num_eq (JS.parseFloat "-7.") (JS.Fin (- 7))
  /\ JS.parseFloat "-Infinity" = JS.NegInf
  /\ JS.parseFloat "abc" = JS.NaN
  /\ JS.parseFloat "." = JS.NaN
  /\ JS.parseFloat "" = JS.NaN.
Proof. repeat split. Qed.

Example parseInt_examples :
  JS.num_eq (JS.parseInt "2.5") (JS.Fin 2)
  /\ JS.num_eq (JS.parseInt "1e3") (JS.Fin 1)
  /\ JS.num_eq (JS.parseInt "0x1F") (JS.Fin 31)
  /\ JS.num_eq (JS.parseInt "-12px") (JS.Fin (- 12))
  /\ JS.parseInt ".5" = JS.NaN
  /\ JS.parseInt "" = JS.NaN.
Proof. repeat split. Qed.

End Parsers.

(** ** Volume calculator *)

Section CalculatorFacts.

Lemma parseFloat_truthy (s : string) (q : Q) :
  JS.parseFloat s = JS.Fin q -> JS.truthy s = true.
Proof. destruct s; [discriminate | reflexivity]. Qed.

Lemma parseInt_truthy (s : string) (q : Q) :
  JS.parseInt s = JS.Fin q -> JS.truthy s = true.
Proof. destruct s; [discriminate | reflexivity]. Qed.

Lemma gt0_Fin (q : Q) : 0 < q -> JS.gt0 (JS.Fin q) = true.
Proof.
  intros H. simpl. destruct (Qle_bool q 0) eqn:E; [|reflexivity].
  rewrite Qle_bool_iff in E. lra.
Qed.

Lemma gt0_le0 (x : JS.number) : JS.le0 x = true -> JS.gt0 x = false.
Proof. destruct x; simpl; try congruence. intros ->. reflexivity. Qed.

Variable formData : ProductFeatures.

(** With finite readings, every intermediate value is the exact one. *)
Lemma avgDiameter_finite (a b : Q) :
  JS.parseFloat (diameterFrom formData) = JS.Fin a ->
  JS.parseFloat (diameterTo formData) = JS.Fin b ->
  avgDiameter formData = JS.Fin ((a + b) / 2 / 100).
Proof. intros Ha Hb. unfold avgDiameter. rewrite Ha, Hb. reflexivity. Qed.

Lemma avgRadius_finite (a b : Q) :
  JS.parseFloat (diameterFrom formData) = JS.Fin a ->
  JS.parseFloat (diameterTo formData) = JS.Fin b ->
  avgRadius formData = JS.Fin ((a + b) / 2 / 100 / 2).
Proof.
  intros Ha Hb. unfold avgRadius. rewrite (avgDiameter_finite a b Ha Hb). reflexivity.
Qed.

(** The computation on finite readings with a positive average diameter;
    the piece count is what [parseInt] reads. *)
Lemma cubicMetersOf_finite (a b l n : Q) :
  JS.parseFloat (diameterFrom formData) = JS.Fin a ->
  JS.parseFloat (diameterTo formData) = JS.Fin b ->
  JS.parseFloat (length' formData) = JS.Fin l ->
  JS.parseInt (quantity formData) = JS.Fin n ->
  0 < a + b ->
  cubicMetersOf formData = JS.Fin (JS.roundTo 3 (volume_formula a b l n)).
Proof.
  intros Ha Hb Hl Hn Hpos. unfold cubicMetersOf, volumePerPiece.
  rewrite (parseFloat_truthy _ _ Ha), (parseFloat_truthy _ _ Hb),
          (parseFloat_truthy _ _ Hl), (parseInt_truthy _ _ Hn).
  rewrite (avgRadius_finite a b Ha Hb), (avgDiameter_finite a b Ha Hb), Hl, Hn.
  rewrite gt0_Fin.
  - cbn [andb negb JS.isNaN JS.pow2 JS.mul JS.toFixed_parsed].
    f_equal. apply roundTo_comp. unfold volume_formula. field.
  - assert (E : (a + b) / 2 / 100 == (a + b) * (1 # 200)) by field.
    rewrite E. lra.
Qed.



End CalculatorFacts.

Section CalculatorClaims.








(** C7, as the specification words it, fails in its last figure: the
    stored total is not 7.068. *)
Lemma calculator_scenario_not_7068 :
  ~ (JS.num_eq (avgRadius (form "10" "20" "4" "100")) (JS.Fin (75 # 1000))
     /\ JS.num_eq (JS.toFixed_parsed 4 (volumePerPiece (form "10" "20" "4" "100")))
                  (JS.Fin (707 # 10000))
     /\ volume "10" "20" "4" "100" = Some (JS.Fin (7068 # 1000))).
Proof. intros (_ & _ & H). vm_compute in H. discriminate H. Qed.

(** C7 (amended): for diameters 10 and 20, length 4 and 100 pieces, the
    average radius is 0.075 m, the volume of a piece is 0.0707 m3 to four
    decimals, and the stored total is 7.069: the exact product, 7.06858...,
    rounds up in its third decimal. *)
Theorem calculator_scenario :
  JS.num_eq (avgRadius (form "10" "20" "4" "100")) (JS.Fin (75 # 1000))
  /\ JS.num_eq (JS.toFixed_parsed 4 (volumePerPiece (form "10" "20" "4" "100")))
               (JS.Fin (707 # 10000))
  /\ volume "10" "20" "4" "100" = Some (JS.Fin (7069 # 1000)).
Proof. repeat split. Qed.

End CalculatorClaims.

(** ** Objects as maps *)

Section ObjFacts.
Context {V : Type}.
Implicit Types (o : Obj.t V) (k : string) (v : V).

Lemma get_set_same k v o : Obj.get k (Obj.set k v o) = Some v.
Proof.
  induction o as [|[k' v'] o IH]; simpl.
  - now rewrite String.eqb_refl.
  - destruct (String.eqb k k') eqn:E; simpl; rewrite E; [reflexivity | exact IH].
Qed.

Lemma get_set_other k k' v o :
  k <> k' -> Obj.get k' (Obj.set k v o) = Obj.get k' o.
Proof.
  intros Hne. induction o as [|[k0 v0] o IH]; simpl.
  - destruct (String.eqb_spec k' k); [congruence | reflexivity].
  - destruct (String.eqb_spec k k0); simpl.
    + subst k0. destruct (String.eqb_spec k' k); [congruence | reflexivity].
    + now rewrite IH.
Qed.

Lemma keys_set_present k v v0 o :
  Obj.get k o = Some v0 -> Obj.keys (Obj.set k v o) = Obj.keys o.
Proof.
  unfold Obj.keys. induction o as [|[k' v'] o IH]; simpl; [discriminate|].
  destruct (String.eqb k k'); simpl; intros H; [reflexivity|].
  now rewrite IH.
Qed.

End ObjFacts.

(** ** Status aggregator *)

Section Counting.

Lemma countStatus_keys (counts : Obj.t nat) (k : string) :
  Obj.keys (countStatus counts k) = Obj.keys counts.
Proof.
  unfold countStatus. destruct (Obj.get k counts) eqn:E; [|reflexivity].
  now apply keys_set_present with n.
Qed.

Lemma countStatus_get (counts : Obj.t nat) (k k' : string) :
  Obj.get k' (countStatus counts k)
  = if String.eqb k' k then option_map S (Obj.get k' counts) else Obj.get k' counts.
Proof.
  unfold countStatus. destruct (String.eqb_spec k' k) as [->|Hne].
  - destruct (Obj.get k counts) eqn:E; simpl.
    + apply get_set_same.
    + exact E.
  - destruct (Obj.get k counts); [|reflexivity].
    apply get_set_other. congruence.
Qed.

Lemma fold_countStatus_keys (ks : list string) (counts : Obj.t nat) :
  Obj.keys (fold_left countStatus ks counts) = Obj.keys counts.
Proof.
  revert counts. induction ks as [|k ks IH]; intros counts; simpl; [reflexivity|].
  now rewrite IH, countStatus_keys.
Qed.

Lemma fold_countStatus_get (ks : list string) (counts : Obj.t nat) (k : string) :
  Obj.get k (fold_left countStatus ks counts)
  = option_map (Nat.add (occ k ks)) (Obj.get k counts).
Proof.
  revert counts. induction ks as [|k0 ks IH]; intros counts; simpl.
  - now destruct (Obj.get k counts).
  - rewrite IH, countStatus_get. unfold occ. simpl.
    destruct (String.eqb k k0); [|reflexivity].
    destruct (Obj.get k counts); simpl; [|reflexivity].
    f_equal. lia.
Qed.

Lemma demandCounts_fold (items : list Stored.Item) :
  demandCounts items
  = fold_left countStatus (demandKeys items)
      [ (DemandStatus.RECEIVED, 0%nat); (DemandStatus.PROCESSING, 0%nat);
        (DemandStatus.COMPLETED, 0%nat); (DemandStatus.CANCELLED, 0%nat) ].
Proof.
  unfold demandCounts. generalize
    [ (DemandStatus.RECEIVED, 0%nat); (DemandStatus.PROCESSING, 0%nat);
      (DemandStatus.COMPLETED, 0%nat); (DemandStatus.CANCELLED, 0%nat) ].
  induction items as [|d items IH]; intros counts; simpl; [reflexivity|].
  rewrite IH. destruct (Stored.status d); reflexivity.
Qed.

Lemma stockCounts_fold (items : list Stored.Item) :
  stockCounts items
  = fold_left countStatus (stockKeys items)
      [ (StockStatus.AVAILABLE, 0%nat); (StockStatus.RESERVED, 0%nat);
        (StockStatus.SOLD, 0%nat) ].
Proof.
  unfold stockCounts. generalize
    [ (StockStatus.AVAILABLE, 0%nat); (StockStatus.RESERVED, 0%nat);
      (StockStatus.SOLD, 0%nat) ].
  induction items as [|d items IH]; intros counts; simpl; [reflexivity|].
  rewrite IH. destruct (Stored.status d) as [k|]; [|reflexivity].
  destruct (JS.truthy k); reflexivity.
Qed.

Lemma occ_demandKeys (k : string) (items : list Stored.Item) :
  occ k (demandKeys items) = recordsWith k items.
Proof.
  unfold occ, recordsWith, demandKeys, hasStatus.
  induction items as [|d items IH]; simpl; [reflexivity|].
  destruct (Stored.status d) as [k'|]; simpl; [|exact IH].
  rewrite (String.eqb_sym k k'). destruct (String.eqb k' k); simpl; now rewrite IH.
Qed.

Lemma occ_stockKeys (k : string) (items : list Stored.Item) :
  JS.truthy k = true -> occ k (stockKeys items) = recordsWith k items.
Proof.
  intros Hk. unfold occ, recordsWith, stockKeys, hasStatus.
  induction items as [|d items IH]; simpl; [reflexivity|].
  destruct (Stored.status d) as [k'|]; simpl; [|exact IH].
  destruct (JS.truthy k') eqn:Hk'; simpl.
  - rewrite (String.eqb_sym k k'). destruct (String.eqb k' k); simpl; now rewrite IH.
  - destruct (String.eqb_spec k' k) as [E|_]; [congruence | exact IH].
Qed.

(** Each count is the number of records with that status. *)
Lemma demand_countAt (items : list Stored.Item) (k : string) :
  In k DemandStatus.values ->
  countAt (demandCounts items) k = recordsWith k items.
Proof.
  intros Hk. unfold countAt.
  rewrite demandCounts_fold, fold_countStatus_get, occ_demandKeys.
  simpl in Hk. destruct Hk as [<-|[<-|[<-|[<-|[]]]]]; simpl; lia.
Qed.

Lemma stock_countAt (items : list Stored.Item) (k : string) :
  In k StockStatus.values ->
  countAt (stockCounts items) k = recordsWith k items.
Proof.
  intros Hk. unfold countAt.
  rewrite stockCounts_fold, fold_countStatus_get.
  simpl in Hk. destruct Hk as [<-|[<-|[<-|[]]]];
    rewrite occ_stockKeys by reflexivity; simpl; lia.
Qed.

(** Over an enumeration without repeats, the counts add up to the number
    of records whose status is in the enumeration. *)
Lemma recordsWith_sum (values : list string) (items : list Stored.Item) :
  NoDup values ->
  list_sum (map (fun k => recordsWith k items) values)
  = List.length (filter (statusIn values) items).
Proof.
  intros Hnd. induction items as [|d items IH].
  - simpl. induction values; simpl; [reflexivity|].
    inversion Hnd; subst. now rewrite IHvalues.
  - assert (Hstep : list_sum (map (fun k => recordsWith k (d :: items)) values)
             = ((if statusIn values d then 1 else 0)
                + list_sum (map (fun k => recordsWith k items) values))%nat).
    { clear IH. unfold statusIn. induction values as [|k values IHv]; [reflexivity|].
      inversion Hnd as [|? ? Hnotin Hnd']; subst.
      cbn [map existsb].
      change (list_sum (?x :: ?l)) with (x + list_sum l)%nat.
      rewrite (IHv Hnd').
      unfold recordsWith at 1. cbn [filter].
      destruct (hasStatus k d) eqn:Hk; cbn [orb List.length].
      - assert (Hrest : existsb (fun k0 => hasStatus k0 d) values = false).
        { apply not_true_is_false. intros Hex.
          apply existsb_exists in Hex as (k0 & Hin & Hk0).
          unfold hasStatus in Hk, Hk0. destruct (Stored.status d); [|discriminate].
          apply String.eqb_eq in Hk, Hk0. congruence. }
        rewrite Hrest. fold (recordsWith k items). lia.
      - fold (recordsWith k items). lia. }
    rewrite Hstep, IH. cbn [filter].
    destruct (statusIn values d); simpl; lia.
Qed.

End Counting.

Section AggregatorRows.

Lemma orderStatusSummary_rows (items : list Stored.Item) :
  items <> [] ->
  orderStatusSummary items = map (rowOf DemandStatusColorMap items) DemandStatus.values.
Proof.
  intros Hne. unfold orderStatusSummary.
  destruct items as [|d items]; [congruence|].
  cbn [List.length Nat.eqb]. unfold summaryPoint, rowOf, DemandStatus.values.
  cbn [map].
  rewrite !demand_countAt by (simpl; tauto). reflexivity.
Qed.

Lemma stockStatusSummary_rows (items : list Stored.Item) :
  items <> [] ->
  stockStatusSummary items = map (rowOf StockStatusColorMap items) StockStatus.values.
Proof.
  intros Hne. unfold stockStatusSummary.
  destruct items as [|d items]; [congruence|].
  cbn [List.length Nat.eqb]. unfold summaryPoint, rowOf, StockStatus.values.
  cbn [map].
  rewrite !stock_countAt by (simpl; tauto). reflexivity.
Qed.

Lemma orderStatusSummary_empty :
  orderStatusSummary [] = map (zeroPoint DemandStatusColorMap) DemandStatus.values.
Proof. reflexivity. Qed.

Lemma stockStatusSummary_empty :
  stockStatusSummary [] = map (zeroPoint StockStatusColorMap) StockStatus.values.
Proof. reflexivity. Qed.

Lemma demand_values_NoDup : NoDup DemandStatus.values.
Proof.
  unfold DemandStatus.values. repeat constructor; simpl; intuition discriminate.
Qed.

Lemma stock_values_NoDup : NoDup StockStatus.values.
Proof.
  unfold StockStatus.values. repeat constructor; simpl; intuition discriminate.
Qed.

Lemma sumCounts_rowOf (colors : Obj.t string) (items : list Stored.Item)
    (values : list string) :
  sumCounts (map (rowOf colors items) values)
  = list_sum (map (fun k => recordsWith k items) values).
Proof. unfold sumCounts. rewrite map_map. reflexivity. Qed.

(** The counts add up to the number of records with an enumerated status. *)
Lemma order_sumCounts (items : list Stored.Item) :
  sumCounts (orderStatusSummary items)
  = List.length (filter (statusIn DemandStatus.values) items).
Proof.
  destruct items as [|d items]; [reflexivity|].
  rewrite orderStatusSummary_rows by discriminate.
  rewrite sumCounts_rowOf. apply recordsWith_sum, demand_values_NoDup.
Qed.

Lemma stock_sumCounts (items : list Stored.Item) :
  sumCounts (stockStatusSummary items)
  = List.length (filter (statusIn StockStatus.values) items).
Proof.
  destruct items as [|d items]; [reflexivity|].
  rewrite stockStatusSummary_rows by discriminate.
  rewrite sumCounts_rowOf. apply recordsWith_sum, stock_values_NoDup.
Qed.

Lemma order_statuses (items : list Stored.Item) :
  map point_status (orderStatusSummary items) = DemandStatus.values.
Proof.
  destruct items as [|d items]; [reflexivity|].
  rewrite orderStatusSummary_rows by discriminate. reflexivity.
Qed.

Lemma stock_statuses (items : list Stored.Item) :
  map point_status (stockStatusSummary items) = StockStatus.values.
Proof.
  destruct items as [|d items]; [reflexivity|].
  rewrite stockStatusSummary_rows by discriminate. reflexivity.
Qed.

Lemma filter_all {A : Type} (f : A -> bool) (l : list A) :
  Forall (fun x => f x = true) l -> filter f l = l.
Proof.
  induction 1 as [|x l Hx _ IH]; simpl; [reflexivity|]. now rewrite Hx, IH.
Qed.

Lemma filter_some_out {A : Type} (f : A -> bool) (l : list A) :
  Exists (fun x => f x = false) l ->
  (List.length (filter f l) < List.length l)%nat.
Proof.
  induction 1 as [x l Hx | x l _ IH]; simpl.
  - rewrite Hx. pose proof (filter_length_le f l). lia.
  - destruct (f x); simpl; lia.
Qed.

End AggregatorRows.

Section Percentages.

Lemma sumPercentages_rowOf (colors : Obj.t string) (items : list Stored.Item)
    (values : list string) :
  sumPercentages (map (rowOf colors items) values)
  = fold_right Qplus 0
      (map (fun k => percentOf (recordsWith k items) (List.length items)) values).
Proof. unfold sumPercentages. rewrite map_map. reflexivity. Qed.

Lemma percentOf_error (c total : nat) :
  Qabs (percentOf c total - share c total) <= 1 # 20.
Proof.
  unfold percentOf. fold (share c total).
  pose proof (roundTo_error 1 (share c total)) as H.
  assert (E : 1 / (2 * inject_Z (JS.pow10 1)) == 1 # 20) by reflexivity.
  now rewrite E in H.
Qed.

(** The shares of a list of counts add up to the share of their sum. *)
Lemma share_sum (cs : list nat) (total : nat) :
  (0 < total)%nat ->
  fold_right Qplus 0 (map (fun c => share c total) cs) == share (list_sum cs) total.
Proof.
  intros Hpos.
  assert (Hn : ~ inject_Z (Z.of_nat total) == 0).
  { change 0 with (inject_Z 0). rewrite inject_Z_injective. lia. }
  induction cs as [|c cs IH].
  - simpl. unfold share. simpl. field. exact Hn.
  - cbn [map fold_right]. rewrite IH.
    change (list_sum (c :: cs)) with (c + list_sum cs)%nat.
    unfold share. rewrite Nat2Z.inj_add, inject_Z_plus. field. exact Hn.
Qed.

(** Rounding moves the sum of the percentages by at most 0.05 a row. *)
Lemma percent_sum_error (cs : list nat) (total : nat) :
  (0 < total)%nat ->
  Qabs (fold_right Qplus 0 (map (fun c => percentOf c total) cs)
        - share (list_sum cs) total)
  <= inject_Z (Z.of_nat (List.length cs)) * (1 # 20).
Proof.
  intros Hpos. rewrite <- (share_sum cs total Hpos).
  induction cs as [|c cs IH].
  - simpl. unfold Qle. simpl. lia.
  - cbn [map fold_right List.length].
    rewrite Nat2Z.inj_succ, <- Z.add_1_r, inject_Z_plus.
    pose proof (percentOf_error c total) as Hc.
    apply Qabs_Qle_condition in Hc. apply Qabs_Qle_condition in IH.
    apply Qabs_Qle_condition.
    generalize dependent (fold_right Qplus 0 (map (fun c => percentOf c total) cs)).
    generalize dependent (fold_right Qplus 0 (map (fun c => share c total) cs)).
    generalize dependent (inject_Z (Z.of_nat (List.length cs))).
    generalize dependent (percentOf c total).
    generalize dependent (share c total).
    intros. change (inject_Z 1) with 1. split; lra.
Qed.

Lemma share_all (total : nat) : (0 < total)%nat -> share total total == 100.
Proof.
  intros Hpos. unfold share. field.
  change 0 with (inject_Z 0). rewrite inject_Z_injective. lia.
Qed.

Lemma share_lt (c total : nat) : (c < total)%nat -> share c total < 100.
Proof.
  intros Hlt. unfold share.
  assert (Hpos : 0 < inject_Z (Z.of_nat total)).
  { change 0 with (inject_Z 0). rewrite <- Zlt_Qlt. lia. }
  assert (Hc : inject_Z (Z.of_nat c) < inject_Z (Z.of_nat total)).
  { rewrite <- Zlt_Qlt. lia. }
  assert (H1 : inject_Z (Z.of_nat c) / inject_Z (Z.of_nat total) < 1).
  { apply Qlt_shift_div_r; [exact Hpos | lra]. }
  lra.
Qed.

(** The percentages of the rows of a non-empty list, against the share of
    the records that were counted. *)
Lemma rows_percent_sum (colors : Obj.t string) (items : list Stored.Item)
    (values : list string) :
  NoDup values -> items <> [] ->
  Qabs (sumPercentages (map (rowOf colors items) values)
        - share (List.length (filter (statusIn values) items)) (List.length items))
  <= inject_Z (Z.of_nat (List.length values)) * (1 # 20).
Proof.
  intros Hnd Hne.
  assert (Hpos : (0 < List.length items)%nat).
  { destruct items; [congruence | simpl; lia]. }
  rewrite sumPercentages_rowOf, <- (recordsWith_sum values items Hnd).
  pose proof (percent_sum_error (map (fun k => recordsWith k items) values)
                (List.length items) Hpos) as H.
  rewrite map_map, length_map in H. exact H.
Qed.

End Percentages.

Section AggregatorClaims.

Variable st : Storage.
Variable prev : AdminFeatureState.

(** C2: when every record carries a status of the enumeration, the
    aggregator returns one row per enumeration value, in declaration order,
    rows with zero records included, and the counts add up to the number of
    records; so for demands (four values) and for stock (three). *)
Theorem status_rows_complete :
  enumerated DemandStatus.values (CUSTOMER_DEMANDS st) ->
  enumerated StockStatus.values (MANUFACTURER_STOCK st) ->
  (map point_status (fst (loadOrderStatusSummary st prev)) = DemandStatus.values
   /\ List.length (fst (loadOrderStatusSummary st prev)) = 4%nat
   /\ sumCounts (fst (loadOrderStatusSummary st prev))
      = List.length (CUSTOMER_DEMANDS st))
  /\ (map point_status (fst (loadStockStatusSummary st prev)) = StockStatus.values
      /\ List.length (fst (loadStockStatusSummary st prev)) = 3%nat
      /\ sumCounts (fst (loadStockStatusSummary st prev))
         = List.length (MANUFACTURER_STOCK st)).
Proof.
  intros Hd Hs. cbn [loadOrderStatusSummary loadStockStatusSummary fst]. split.
  - pose proof (order_statuses (CUSTOMER_DEMANDS st)) as Hk. repeat split.
    + exact Hk.
    + rewrite <- (length_map point_status), Hk. reflexivity.
    + rewrite order_sumCounts. now rewrite (filter_all _ _ Hd).
  - pose proof (stock_statuses (MANUFACTURER_STOCK st)) as Hk. repeat split.
    + exact Hk.
    + rewrite <- (length_map point_status), Hk. reflexivity.
    + rewrite stock_sumCounts. now rewrite (filter_all _ _ Hs).
Qed.


End AggregatorClaims.

Section AggregatorSums.

Variable st : Storage.
Variable prev : AdminFeatureState.

Lemma zero_rows (colors : Obj.t string) (values : list string) :
  Forall (fun row => percentage row = 0) (map (zeroPoint colors) values).
Proof. apply Forall_forall. intros row Hin. apply in_map_iff in Hin as (k & <- & _). reflexivity. Qed.

Lemma enumerated_share (values : list string) (items : list Stored.Item) :
  enumerated values items -> items <> [] ->
  share (List.length (filter (statusIn values) items)) (List.length items) == 100.
Proof.
  intros He Hne. rewrite (filter_all _ _ He). apply share_all.
  destruct items; [congruence | simpl; lia].
Qed.

(** C8: when every record carries a status of the enumeration and there
    are records, the K percentages add up to 100 within 0.1 x K (within
    0.05 x K, even); when there are no records, every percentage is 0. *)
Theorem status_percentages_sum :
  enumerated DemandStatus.values (CUSTOMER_DEMANDS st) ->
  enumerated StockStatus.values (MANUFACTURER_STOCK st) ->
  (((0 < List.length (CUSTOMER_DEMANDS st))%nat ->
    Qabs (sumPercentages (fst (loadOrderStatusSummary st prev)) - 100) <= (1 # 20) * 4
    /\ Qabs (sumPercentages (fst (loadOrderStatusSummary st prev)) - 100) <= (1 # 10) * 4)
   /\ (List.length (CUSTOMER_DEMANDS st) = 0%nat ->
       Forall (fun row => percentage row = 0) (fst (loadOrderStatusSummary st prev))))
  /\ (((0 < List.length (MANUFACTURER_STOCK st))%nat ->
       Qabs (sumPercentages (fst (loadStockStatusSummary st prev)) - 100) <= (1 # 20) * 3
       /\ Qabs (sumPercentages (fst (loadStockStatusSummary st prev)) - 100) <= (1 # 10) * 3)
      /\ (List.length (MANUFACTURER_STOCK st) = 0%nat ->
          Forall (fun row => percentage row = 0) (fst (loadStockStatusSummary st prev)))).
Proof.
  intros Hd Hs. cbn [loadOrderStatusSummary loadStockStatusSummary fst].
  split; split.
  - intros Hpos.
    assert (Hne : CUSTOMER_DEMANDS st <> []) by (intros E; rewrite E in Hpos; simpl in Hpos; lia).
    rewrite orderStatusSummary_rows by exact Hne.
    pose proof (rows_percent_sum DemandStatusColorMap _ _ demand_values_NoDup Hne) as H.
    rewrite (enumerated_share _ _ Hd Hne) in H.
    change (inject_Z (Z.of_nat (List.length DemandStatus.values))) with 4 in H.
    split; [lra | apply Qle_trans with (4 * (1 # 20)); [exact H | lra]].
  - intros Hz. apply length_zero_iff_nil in Hz. rewrite Hz, orderStatusSummary_empty.
    apply zero_rows.
  - intros Hpos.
    assert (Hne : MANUFACTURER_STOCK st <> []) by (intros E; rewrite E in Hpos; simpl in Hpos; lia).
    rewrite stockStatusSummary_rows by exact Hne.
    pose proof (rows_percent_sum StockStatusColorMap _ _ stock_values_NoDup Hne) as H.
    rewrite (enumerated_share _ _ Hs Hne) in H.
    change (inject_Z (Z.of_nat (List.length StockStatus.values))) with 3 in H.
    split; [lra | apply Qle_trans with (3 * (1 # 20)); [exact H | lra]].
  - intros Hz. apply length_zero_iff_nil in Hz. rewrite Hz, stockStatusSummary_empty.
    apply zero_rows.
Qed.

(** With a stray record the counted share stays below 100, and rounding
    adds at most 0.05 a row. *)
Lemma stray_rows (colors : Obj.t string) (values : list string)
    (items : list Stored.Item) :
  NoDup values -> hasStray values items ->
  (list_sum (map (fun k => recordsWith k items) values) < List.length items)%nat
  /\ sumPercentages (map (rowOf colors items) values)
     < 100 + inject_Z (Z.of_nat (List.length values)) * (1 # 20).
Proof.
  intros Hnd Hstray.
  pose proof (filter_some_out _ _ Hstray) as Hlt.
  split; [now rewrite recordsWith_sum|].
  assert (Hne : items <> []) by (intros ->; inversion Hstray).
  pose proof (rows_percent_sum colors _ _ Hnd Hne) as H.
  pose proof (share_lt _ _ Hlt) as Hs.
  apply Qabs_Qle_condition in H. lra.
Qed.

(** C10 (amended): a record whose status is not in the enumeration raises
    no count and is counted in the total; with such a record the counts add
    up to less than the total, and the percentages to less than
    100 + 0.05 x K. *)
Theorem status_stray_record :
  (hasStray DemandStatus.values (CUSTOMER_DEMANDS st) ->
   totalDemandsCount (snd (loadOrderStatusSummary st prev))
   = Some (List.length (CUSTOMER_DEMANDS st))
   /\ sumCounts (fst (loadOrderStatusSummary st prev))
      = List.length (filter (statusIn DemandStatus.values) (CUSTOMER_DEMANDS st))
   /\ (sumCounts (fst (loadOrderStatusSummary st prev))
       < List.length (CUSTOMER_DEMANDS st))%nat
   /\ sumPercentages (fst (loadOrderStatusSummary st prev)) < 100 + 4 * (1 # 20))
  /\ (hasStray StockStatus.values (MANUFACTURER_STOCK st) ->
      totalStockItemsCount (snd (loadStockStatusSummary st prev))
      = Some (List.length (MANUFACTURER_STOCK st))
      /\ sumCounts (fst (loadStockStatusSummary st prev))
         = List.length (filter (statusIn StockStatus.values) (MANUFACTURER_STOCK st))
      /\ (sumCounts (fst (loadStockStatusSummary st prev))
          < List.length (MANUFACTURER_STOCK st))%nat
      /\ sumPercentages (fst (loadStockStatusSummary st prev)) < 100 + 3 * (1 # 20)).
Proof.
  cbn [loadOrderStatusSummary loadStockStatusSummary fst snd
       totalDemandsCount totalStockItemsCount].
  split; intros Hstray.
  - assert (Hne : CUSTOMER_DEMANDS st <> []) by (intros E; rewrite E in Hstray; inversion Hstray).
    destruct (stray_rows DemandStatusColorMap _ _ demand_values_NoDup Hstray) as [Hc Hp].
    rewrite order_sumCounts, orderStatusSummary_rows by exact Hne.
    rewrite <- (recordsWith_sum _ _ demand_values_NoDup).
    repeat split; assumption.
  - assert (Hne : MANUFACTURER_STOCK st <> []) by (intros E; rewrite E in Hstray; inversion Hstray).
    destruct (stray_rows StockStatusColorMap _ _ stock_values_NoDup Hstray) as [Hc Hp].
    rewrite stock_sumCounts, stockStatusSummary_rows by exact Hne.
    rewrite <- (recordsWith_sum _ _ stock_values_NoDup).
    repeat split; assumption.
Qed.

End AggregatorSums.

(** C10, as the specification words it, fails in its last part: 2000
    received demands and one with the status "Archived" give the counts
    2000, 0, 0, 0 against a total of 2001, and the percentages 100.0, 0, 0,
    0, since 99.95002... rounds to 100.0; their sum is not below 100. *)
Lemma status_stray_sum_reaches_100 :
  ~ (forall st prev,
       hasStray DemandStatus.values (CUSTOMER_DEMANDS st) ->
       (sumCounts (fst (loadOrderStatusSummary st prev))
        < List.length (CUSTOMER_DEMANDS st))%nat
       /\ sumPercentages (fst (loadOrderStatusSummary st prev)) < 100).
Proof.
  intros H. destruct (H strayStorage initialState) as [_ Hsum].
  - apply Exists_exists. exists (demandOf "Archived" "comp-1" 1). split.
    + apply in_or_app. right. left. reflexivity.
    + reflexivity.
  - vm_compute in Hsum. discriminate Hsum.
Qed.

(** ** Company volume ranker *)

Section Volumes.

Lemma truthyQ_false (q : Q) : truthyQ q = false -> q == 0.
Proof.
  unfold truthyQ. intros H. apply negb_false_iff in H. now apply Qeq_bool_iff.
Qed.

Lemma truthyQ_true (q : Q) : truthyQ q = true -> ~ q == 0.
Proof.
  unfold truthyQ. intros H Hq. apply negb_true_iff in H.
  apply Qeq_bool_iff in Hq. congruence.
Qed.





End Volumes.

Section Sorting.

Context {A : Type} (key : A -> Q).







End Sorting.

Section Slicing.

Context {A : Type}.







Lemma mapi_from_proj {B C : Type} (f : A -> nat -> B) (proj : B -> C) (h : A -> C)
    (i : nat) (l : list A) :
  (forall a j, proj (f a j) = h a) ->
  map proj (mapi_from i f l) = map h l.
Proof.
  intros Hp. revert i. induction l as [|a l IH]; intros i; simpl.
  - reflexivity.
  - now rewrite Hp, IH.
Qed.

Lemma mapi_from_In {B : Type} (f : A -> nat -> B) (i : nat) (l : list A) (e : B) :
  In e (mapi_from i f l) -> exists a j, In a l /\ e = f a j.
Proof.
  revert i. induction l as [|a l IH]; intros i; simpl; [tauto|].
  intros [<- | H].
  - exists a, i. auto.
  - destruct (IH _ H) as (a' & j & Hin & ->). exists a', j. auto.
Qed.

Lemma mapi_from_length {B : Type} (f : A -> nat -> B) (i : nat) (l : list A) :
  List.length (mapi_from i f l) = List.length l.
Proof. revert i. induction l as [|a l IH]; intros i; simpl; [reflexivity | now rewrite IH]. Qed.

End Slicing.

Section RankerFacts.

Lemma length_substring (n : nat) (s : string) :
  (n <= String.length s)%nat -> String.length (String.substring 0 n s) = n.
Proof.
  revert s. induction n as [|n IH]; intros s Hn.
  - destruct s; reflexivity.
  - destruct s as [|c s]; simpl in *; [lia|]. rewrite IH; [reflexivity | lia].
Qed.

Lemma length_append (s1 s2 : string) :
  String.length (s1 ++ s2) = (String.length s1 + String.length s2)%nat.
Proof. induction s1 as [|c s1 IH]; simpl; [reflexivity | now rewrite IH]. Qed.



Lemma initial_length {A : Type} (l1 l2 : list A) :
  initial l1 l2 -> (List.length l1 <= List.length l2)%nat.
Proof. intros [rest ->]. rewrite length_app. lia. Qed.






Variable st : Storage.
Variable role' : UserRole.



Variable topN : Z.




End RankerFacts.

Section RankerClaims.

Variable st : Storage.
Variable role' : UserRole.
Variable topN : Z.

(** What [loadTopCompaniesByVolume] leaves in the state is [chartData]. *)
Lemma loadTopCompaniesByVolume_state (prev : AdminFeatureState) :
  (role' = CUSTOMER ->
   topCustomersByVolume (loadTopCompaniesByVolume st role' topN prev)
   = Some (chartData st role' topN))
  /\ (role' = MANUFACTURER ->
      topManufacturersByVolume (loadTopCompaniesByVolume st role' topN prev)
      = Some (chartData st role' topN)).
Proof. split; intros ->; reflexivity. Qed.




End RankerClaims.

(** ** The theorems on the sample data *)

Section Samples.

Lemma sample_demands_enumerated :
  enumerated DemandStatus.values (CUSTOMER_DEMANDS sampleStorage).
Proof. repeat constructor. Qed.

Lemma sample_stock_enumerated :
  enumerated StockStatus.values (MANUFACTURER_STOCK sampleStorage).
Proof. repeat constructor. Qed.

Lemma stray_demands : hasStray DemandStatus.values (CUSTOMER_DEMANDS strayStorage).
Proof.
  apply Exists_exists. exists (demandOf "Archived" "comp-1" 1). split.
  - apply in_or_app. right. left. reflexivity.
  - reflexivity.
Qed.

(** The scenario of the specification: two received demands and a
    completed one. *)
Example order_summary_scenario :
  fst (loadOrderStatusSummary sampleStorage initialState)
  = [ mkPoint "Received" 2 (667 # 10) "text-sky-500";
      mkPoint "Processing" 0 (0 # 10) "text-amber-500";
      mkPoint "Completed" 1 (333 # 10) "text-green-500";
      mkPoint "Cancelled" 0 (0 # 10) "text-red-500" ].
Proof. reflexivity. Qed.

(** The scenario of the specification: volumes 5, 0 and 12. *)
Example ranker_scenario :
  chartData sampleStorage CUSTOMER 5
  = [ mkEntry "Gamma Woodwo..." (1200 # 100) "text-sky-700";
      mkEntry "Alpha Timber" (500 # 100) "text-sky-600" ].
Proof. reflexivity. Qed.

(** Two manufacturers tied at volume 3 come out in company-list order,
    though their stock was stored in the other order. *)
Example ranker_tie_scenario :
  map label (chartData sampleStorage MANUFACTURER 5)
  = [ "Delta Sawmill"%string; "Epsilon Fore..."%string ].
Proof. reflexivity. Qed.

End Samples.

Lemma status_rows_complete_witness :
  (map point_status (fst (loadOrderStatusSummary sampleStorage initialState))
   = DemandStatus.values
   /\ List.length (fst (loadOrderStatusSummary sampleStorage initialState)) = 4%nat
   /\ sumCounts (fst (loadOrderStatusSummary sampleStorage initialState))
      = List.length (CUSTOMER_DEMANDS sampleStorage))
  /\ (map point_status (fst (loadStockStatusSummary sampleStorage initialState))
      = StockStatus.values
      /\ List.length (fst (loadStockStatusSummary sampleStorage initialState)) = 3%nat
      /\ sumCounts (fst (loadStockStatusSummary sampleStorage initialState))
         = List.length (MANUFACTURER_STOCK sampleStorage)).
Proof.
  apply (status_rows_complete sampleStorage initialState).
  - exact sample_demands_enumerated.
  - exact sample_stock_enumerated.
Defined.


Lemma status_percentages_sum_witness :
  Qabs (sumPercentages (fst (loadOrderStatusSummary sampleStorage initialState)) - 100)
  <= (1 # 10) * 4.
Proof.
  apply (proj1 (status_percentages_sum sampleStorage initialState
                  sample_demands_enumerated sample_stock_enumerated)).
  simpl. lia.
Defined.

Lemma status_stray_record_witness :
  (sumCounts (fst (loadOrderStatusSummary strayStorage initialState))
   < List.length (CUSTOMER_DEMANDS strayStorage))%nat.
Proof.
  apply (proj1 (status_stray_record strayStorage initialState)).
  exact stray_demands.
Defined.



(** * Further properties *)

(** ** Numbers up to their value *)

Section NumberCongruence.

Lemma num_eq_refl (x : JS.number) : JS.num_eq x x.
Proof. destruct x; simpl; auto. reflexivity. Qed.

Lemma num_eq_sym (x y : JS.number) : JS.num_eq x y -> JS.num_eq y x.
Proof. destruct x, y; simpl; auto. intros H. now symmetry. Qed.

Lemma add_comm (x y : JS.number) : JS.num_eq (JS.add x y) (JS.add y x).
Proof. destruct x, y; simpl; auto. apply Qplus_comm. Qed.

Lemma sgn_comp (a b : Q) : a == b -> JS.sgn a = JS.sgn b.
Proof. intros H. unfold JS.sgn. now rewrite H. Qed.

Lemma isNaN_comp (x y : JS.number) : JS.num_eq x y -> JS.isNaN x = JS.isNaN y.
Proof. destruct x, y; simpl; tauto. Qed.

Lemma gt0_comp (x y : JS.number) : JS.num_eq x y -> JS.gt0 x = JS.gt0 y.
Proof.
  destruct x as [| | |a], y as [| | |b]; simpl; try tauto. intros H.
  f_equal. destruct (Qle_bool a 0) eqn:Ea, (Qle_bool b 0) eqn:Eb; try reflexivity.
  - rewrite Qle_bool_iff in Ea. rewrite H in Ea. rewrite <- Qle_bool_iff in Ea. congruence.
  - rewrite Qle_bool_iff in Eb. rewrite <- H in Eb. rewrite <- Qle_bool_iff in Eb. congruence.
Qed.

Lemma mul_inf_comp (pos : bool) (x y : JS.number) :
  JS.num_eq x y -> JS.num_eq (JS.mul_inf pos x) (JS.mul_inf pos y).
Proof.
  destruct x as [| | |a], y as [| | |b]; simpl; try tauto;
    try (intros _; apply num_eq_refl).
  intros H. rewrite (sgn_comp a b H). apply num_eq_refl.
Qed.

Lemma mul_comp (x x' y y' : JS.number) :
  JS.num_eq x x' -> JS.num_eq y y' -> JS.num_eq (JS.mul x y) (JS.mul x' y').
Proof.
  intros Hx Hy.
  destruct x as [| | |a], x' as [| | |a']; simpl in Hx; try contradiction;
    destruct y as [| | |b], y' as [| | |b']; simpl in Hy; try contradiction;
    cbn [JS.mul]; try exact I;
    try (apply mul_inf_comp; simpl; assumption).
  simpl. now rewrite Hx, Hy.
Qed.

Lemma div_comp (x x' : JS.number) (c : Q) :
  JS.num_eq x x' -> JS.num_eq (JS.div x (JS.Fin c)) (JS.div x' (JS.Fin c)).
Proof.
  destruct x as [| | |a], x' as [| | |a']; simpl; try tauto;
    try (intros _; apply num_eq_refl).
  intros H. destruct (JS.sgn c); rewrite ?(sgn_comp a a' H);
    try apply num_eq_refl; simpl; now rewrite H.
Qed.

Lemma toFixed_parsed_comp (d : nat) (x y : JS.number) :
  JS.num_eq x y -> JS.toFixed_parsed d x = JS.toFixed_parsed d y.
Proof.
  destruct x as [| | |a], y as [| | |b]; simpl; try tauto.
  intros H. f_equal. now apply roundTo_comp.
Qed.

End NumberCongruence.

(** ** Volume calculator: the order of the diameters and the piece count *)

Section CalculatorMore.

Lemma avgDiameter_swap (fd : ProductFeatures) :
  JS.num_eq (avgDiameter (swapDiameters fd)) (avgDiameter fd).
Proof. unfold avgDiameter. cbn [swapDiameters diameterFrom diameterTo]. do 2 apply div_comp. apply add_comm. Qed.

(** The volume does not depend on which of the two diameters is entered as
    [diameterFrom] and which as [diameterTo]: the code only averages them. *)
Theorem calculator_diameter_order (fd : ProductFeatures) :
  cubicMeters (calculateCubicMeters (swapDiameters fd))
  = cubicMeters (calculateCubicMeters fd).
Proof.
  cbn [calculateCubicMeters cubicMeters]. f_equal.
  pose proof (avgDiameter_swap fd) as HA.
  unfold cubicMetersOf, volumePerPiece, avgRadius.
  cbn [swapDiameters diameterFrom diameterTo length' quantity].
  rewrite (andb_comm (JS.truthy (diameterTo fd)) (JS.truthy (diameterFrom fd))).
  destruct (JS.truthy (diameterFrom fd) && JS.truthy (diameterTo fd)
            && JS.truthy (length' fd) && JS.truthy (quantity fd))%bool; [|reflexivity].
  cbv zeta. rewrite (isNaN_comp _ _ HA), (gt0_comp _ _ HA).
  destruct (negb (JS.isNaN (avgDiameter fd))
            && negb (JS.isNaN (JS.parseFloat (length' fd)))
            && negb (JS.isNaN (JS.parseInt (quantity fd)))
            && JS.gt0 (avgDiameter fd))%bool; [|reflexivity].
  apply toFixed_parsed_comp.
  apply mul_comp; [|apply num_eq_refl].
  apply mul_comp; [|apply num_eq_refl].
  apply mul_comp; [apply num_eq_refl|].
  unfold JS.pow2. apply mul_comp; apply div_comp; exact HA.
Qed.

Lemma PI_pos : 0 < JS.PI.
Proof. reflexivity. Qed.

Lemma volume_formula_mono (a b l n n' : Q) :
  0 <= l -> n <= n' -> volume_formula a b l n <= volume_formula a b l n'.
Proof.
  intros Hl Hn. unfold volume_formula.
  assert (Hsq : 0 <= ((a + b) / 200) ^ 2).
  { assert (E : ((a + b) / 200) ^ 2 == ((a + b) / 200) * ((a + b) / 200)) by (simpl; ring).
    rewrite E. destruct (Qlt_le_dec ((a + b) / 200) 0) as [H|H].
    - assert (0 <= - ((a + b) / 200) * - ((a + b) / 200))
        by (apply Qmult_le_0_compat; lra).
      lra.
    - now apply Qmult_le_0_compat. }
  assert (HC : 0 <= JS.PI * ((a + b) / 200) ^ 2 / 4 * l).
  { pose proof PI_pos as HPI.
    apply Qmult_le_0_compat; [|exact Hl].
    assert (H0 : 0 <= JS.PI * ((a + b) / 200) ^ 2)
      by (apply Qmult_le_0_compat; [apply Qlt_le_weak, HPI | exact Hsq]).
    unfold Qdiv. apply Qmult_le_0_compat; [exact H0 | discriminate]. }
  generalize dependent (JS.PI * ((a + b) / 200) ^ 2 / 4 * l). intros C HC.
  rewrite (Qmult_comm C n), (Qmult_comm C n'). now apply Qmult_le_compat_r.
Qed.

(** With the same diameters and a length that is not negative, a larger
    piece count never stores a smaller volume. *)
Theorem calculator_more_pieces (dF dT len q q' : string) (a b l n n' : Q) :
  JS.parseFloat dF = JS.Fin a -> JS.parseFloat dT = JS.Fin b ->
  JS.parseFloat len = JS.Fin l ->
  JS.parseInt q = JS.Fin n -> JS.parseInt q' = JS.Fin n' ->
  0 < a + b -> 0 <= l -> n <= n' ->
  exists v v',
    volume dF dT len q = Some (JS.Fin v)
    /\ volume dF dT len q' = Some (JS.Fin v')
    /\ v <= v'.
Proof.
  intros Ha Hb Hl Hn Hn' Hpos Hl0 Hle.
  exists (JS.roundTo 3 (volume_formula a b l n)),
         (JS.roundTo 3 (volume_formula a b l n')).
  unfold volume. cbn [calculateCubicMeters cubicMeters].
  rewrite (cubicMetersOf_finite (form dF dT len q) a b l n Ha Hb Hl Hn Hpos).
  rewrite (cubicMetersOf_finite (form dF dT len q') a b l n' Ha Hb Hl Hn' Hpos).
  repeat split. apply roundTo_mono. now apply volume_formula_mono.
Qed.

End CalculatorMore.

Lemma calculator_more_pieces_witness :
  exists v v',
    volume "10" "20" "4" "99" = Some (JS.Fin v)
    /\ volume "10" "20" "4" "100" = Some (JS.Fin v')
    /\ v <= v'.
Proof.
  apply (calculator_more_pieces "10" "20" "4" "99" "100"
           (inject_Z 10 * Qpower 10 0) (inject_Z 20 * Qpower 10 0)
           (inject_Z 4 * Qpower 10 0) (inject_Z 99) (inject_Z 100));
    try reflexivity; vm_compute; discriminate.
Defined.

(** ** Submitting a form, seen from the dashboard *)

Section Submitting.

Lemma order_counts (items : list Stored.Item) :
  map count (orderStatusSummary items)
  = map (fun k => recordsWith k items) DemandStatus.values.
Proof.
  destruct items as [|d items]; [reflexivity|].
  rewrite orderStatusSummary_rows by discriminate. now rewrite map_map.
Qed.

Lemma stock_counts (items : list Stored.Item) :
  map count (stockStatusSummary items)
  = map (fun k => recordsWith k items) StockStatus.values.
Proof.
  destruct items as [|d items]; [reflexivity|].
  rewrite stockStatusSummary_rows by discriminate. now rewrite map_map.
Qed.

Variable now : Z.
Variable iso : string.
Variable s : Store.
Variable prev : AdminFeatureState.

(** A demand submitted through the customer form is stored in front of the
    others; on the dashboard the count of received demands and the total
    go up by one, every other count stays, and the stock summary is
    untouched. *)
Theorem submit_demand_counts (formData : ProductFeatures) :
  let s' := handleSubmitDemand now iso formData s in
  demands s' = newDemand now iso formData :: demands s
  /\ (exists r p c x,
        map count (fst (loadOrderStatusSummary (dashboardStorage s) prev))
        = [r; p; c; x]
        /\ map count (fst (loadOrderStatusSummary (dashboardStorage s') prev))
           = [S r; p; c; x])
  /\ totalDemandsCount (snd (loadOrderStatusSummary (dashboardStorage s') prev))
     = Some (S (List.length (demands s)))
  /\ fst (loadStockStatusSummary (dashboardStorage s') prev)
     = fst (loadStockStatusSummary (dashboardStorage s) prev).
Proof.
  cbv zeta. split; [reflexivity|]. split; [|split].
  - cbn [loadOrderStatusSummary fst dashboardStorage CUSTOMER_DEMANDS
         handleSubmitDemand demands map].
    rewrite !order_counts.
    exists (recordsWith DemandStatus.RECEIVED (map Listing.dashboard (demands s))),
           (recordsWith DemandStatus.PROCESSING (map Listing.dashboard (demands s))),
           (recordsWith DemandStatus.COMPLETED (map Listing.dashboard (demands s))),
           (recordsWith DemandStatus.CANCELLED (map Listing.dashboard (demands s))).
    split; reflexivity.
  - cbn [loadOrderStatusSummary snd totalDemandsCount dashboardStorage
         CUSTOMER_DEMANDS handleSubmitDemand demands map List.length].
    now rewrite length_map.
  - reflexivity.
Qed.

(** The same for a stock item submitted through the manufacturer form: the
    count of available items and the total go up by one. *)
Theorem submit_stock_counts (formData : StockForm) :
  let s' := handleSubmitStock now iso formData s in
  stockItems s' = newStockItem now iso formData :: stockItems s
  /\ (exists a r x,
        map count (fst (loadStockStatusSummary (dashboardStorage s) prev))
        = [a; r; x]
        /\ map count (fst (loadStockStatusSummary (dashboardStorage s') prev))
           = [S a; r; x])
  /\ totalStockItemsCount (snd (loadStockStatusSummary (dashboardStorage s') prev))
     = Some (S (List.length (stockItems s)))
  /\ fst (loadOrderStatusSummary (dashboardStorage s') prev)
     = fst (loadOrderStatusSummary (dashboardStorage s) prev).
Proof.
  cbv zeta. split; [reflexivity|]. split; [|split].
  - cbn [loadStockStatusSummary fst dashboardStorage MANUFACTURER_STOCK
         handleSubmitStock stockItems map].
    rewrite !stock_counts.
    exists (recordsWith StockStatus.AVAILABLE (map Listing.dashboard (stockItems s))),
           (recordsWith StockStatus.RESERVED (map Listing.dashboard (stockItems s))),
           (recordsWith StockStatus.SOLD (map Listing.dashboard (stockItems s))).
    split; reflexivity.
  - cbn [loadStockStatusSummary snd totalStockItemsCount dashboardStorage
         MANUFACTURER_STOCK handleSubmitStock stockItems map List.length].
    now rewrite length_map.
  - reflexivity.
Qed.

(** Neither form writes a company id into the item it stores, so
    submitting through them never changes the ranking of the companies by
    volume, whatever the role and the number of entries asked for. *)
Theorem submit_leaves_ranking (r : UserRole) (topN : Z)
    (demandForm : ProductFeatures) (stockForm : StockForm) :
  chartData (dashboardStorage (handleSubmitDemand now iso demandForm s)) r topN
  = chartData (dashboardStorage s) r topN
  /\ chartData (dashboardStorage (handleSubmitStock now iso stockForm s)) r topN
     = chartData (dashboardStorage s) r topN.
Proof. split; destruct r; reflexivity. Qed.

End Submitting.

(** ** The stock form's checks *)

Section StockFormFacts.

Lemma trimEnd_length (s : string) : (String.length (trimEnd s) <= String.length s)%nat.
Proof.
  induction s as [|c r IH]; simpl; [lia|].
  destruct (trimEnd r) as [|c' r'] eqn:E.
  - destruct (JS.isWhiteSpace c); simpl; lia.
  - simpl in *. lia.
Qed.

Lemma trimStart_length (s : string) :
  (String.length (JS.trimStart s) <= String.length s)%nat.
Proof.
  induction s as [|c r IH]; simpl; [lia|].
  destruct (JS.isWhiteSpace c); simpl; lia.
Qed.

(** Trimming never lengthens a text. *)
Lemma trim_length (s : string) : (String.length (trim s) <= String.length s)%nat.
Proof.
  unfold trim. pose proof (trimEnd_length (JS.trimStart s)).
  pose proof (trimStart_length s). lia.
Qed.

Lemma trimStart_blank (s : string) : blank s = true -> JS.trimStart s = EmptyString.
Proof.
  induction s as [|c r IH]; simpl; [reflexivity|].
  intros H. apply andb_true_iff in H as [Hc Hr]. rewrite Hc. now apply IH.
Qed.

Lemma longEnough_short (s : string) :
  (String.length s < 5)%nat \/ blank s = true -> longEnough (Some s) = false.
Proof.
  intros [H | H]; unfold longEnough.
  - pose proof (trim_length s).
    destruct (Nat.leb_spec 5 (String.length (trim s))); [lia|].
    apply andb_false_r.
  - unfold trim. rewrite (trimStart_blank s H). simpl. apply andb_false_r.
Qed.

Variable formData : StockForm.

(** The three checks are nested: what is enough for a price suggestion is
    enough for an image, and what is enough for an image is enough for the
    listing analysis.  A form with a diameter type for which
    [calculateCubicMeters] stores a volume other than 0 is enough for all
    three. *)
Theorem stock_form_checks_nested :
  (isFormDataSufficientForPriceSuggestion formData = true ->
   isFormDataSufficientForImage formData = true)
  /\ (isFormDataSufficientForImage formData = true ->
      isFormDataSufficientForAnalysis formData = true)
  /\ (JS.truthy (diameterType (features formData)) = true ->
      cubicMeters (calculateCubicMeters (features formData)) <> Some (JS.Fin 0) ->
      isFormDataSufficientForPriceSuggestion formData = true).
Proof.
  unfold isFormDataSufficientForPriceSuggestion, isFormDataSufficientForImage,
    isFormDataSufficientForAnalysis, dimensionsGiven.
  split; [|split].
  - intros H. now apply andb_true_iff in H as [H _].
  - intros ->. apply orb_true_r.
  - intros Ht Hv. rewrite Ht. cbn [andb].
    cbn [calculateCubicMeters cubicMeters] in Hv. unfold cubicMetersOf in Hv.
    destruct (JS.truthy (diameterFrom (features formData))
              && JS.truthy (diameterTo (features formData))
              && JS.truthy (length' (features formData))
              && JS.truthy (quantity (features formData)))%bool; [reflexivity|].
    now contradiction Hv.
Qed.

(** Without the dimensions, only a text with five characters or more
    between its leading and trailing white space enables the analysis: a
    note and a sustainability text that are each shorter than five
    characters, or blank, leave it disabled. *)
Theorem stock_analysis_needs_text :
  dimensionsGiven formData = false ->
  (forall n, notes (features formData) = Some n ->
             (String.length n < 5)%nat \/ blank n = true) ->
  ((String.length (sustainabilityInfo formData) < 5)%nat
   \/ blank (sustainabilityInfo formData) = true) ->
  isFormDataSufficientForAnalysis formData = false.
Proof.
  intros Hd Hn Hs. unfold isFormDataSufficientForAnalysis.
  rewrite Hd, (longEnough_short _ Hs).
  destruct (notes (features formData)) as [n|] eqn:E.
  - now rewrite (longEnough_short n (Hn n eq_refl)).
  - reflexivity.
Qed.

End StockFormFacts.

(** ** The admin's form for a company *)

Section CompanyActionFacts.

Lemma orDefault_truthy (x : option string) (d : string) :
  truthyOpt x = true -> exists s, x = Some s /\ JS.truthy s = true /\ orDefault x d = s.
Proof.
  destruct x as [s|]; simpl; [|discriminate]. intros H. exists s. now rewrite H.
Qed.

Lemma mul_NaN_r (x : JS.number) : JS.mul x JS.NaN = JS.NaN.
Proof. now destruct x. Qed.

Lemma gt0_not_NaN (x : JS.number) : JS.gt0 x = true -> JS.isNaN x = false.
Proof. now destruct x. Qed.

Lemma orZero_toFixed (d : nat) (x : JS.number) :
  x <> JS.NaN -> JS.toFixed_parsed d (orZero x) = JS.toFixed_parsed d x.
Proof.
  destruct x as [| | |q]; intros H; try reflexivity; [congruence|].
  simpl. destruct (truthyQ q) eqn:E; [reflexivity|].
  simpl. f_equal. apply roundTo_comp. symmetry. now apply truthyQ_false.
Qed.

(** On a complete form with a positive average diameter the admin's form
    stores the volume the customer form computes for the same inputs,
    unless that one is [NaN] (an infinite reading against a zero), which
    the admin's form replaces by 0. *)
Theorem admin_volume_agrees (fd : CompanyAction.FormData) :
  truthyOpt (CompanyAction.diameterFrom fd) = true ->
  truthyOpt (CompanyAction.diameterTo fd) = true ->
  truthyOpt (CompanyAction.length' fd) = true ->
  truthyOpt (CompanyAction.quantity fd) = true ->
  JS.gt0 (avgDiameter (featuresOf fd)) = true ->
  cubicMetersOf (featuresOf fd) <> JS.NaN ->
  JS.num_eq (adminCubicMeters fd) (cubicMetersOf (featuresOf fd)).
Proof.
  destruct fd as [dty [dF|] [dT|] [len|] [q|] nt pr su];
    cbn [truthyOpt CompanyAction.diameterFrom CompanyAction.diameterTo
         CompanyAction.length' CompanyAction.quantity];
    intros HF HT HL HQ; try discriminate.
  unfold adminCubicMeters, cubicMetersOf, volumePerPiece, avgRadius, avgDiameter.
  cbn [featuresOf diameterFrom diameterTo length' quantity orDefault
       CompanyAction.diameterFrom CompanyAction.diameterTo
       CompanyAction.length' CompanyAction.quantity].
  rewrite !HF, !HT, !HL, !HQ. cbn iota. rewrite ?HF, ?HT, ?HL, ?HQ.
  cbn [andb]. cbv zeta.
  set (A := JS.div (JS.div (JS.add (JS.parseFloat dF) (JS.parseFloat dT)) (JS.Fin 2))
                   (JS.Fin 100)).
  intros Hgt. rewrite Hgt, (gt0_not_NaN A Hgt). cbn [negb andb].
  destruct (JS.parseFloat len) as [| | |l] eqn:El.
  - intros _. rewrite mul_NaN_r. vm_compute. reflexivity.
  - destruct (JS.parseInt q) as [| | |n] eqn:En; cbn [JS.isNaN negb andb].
    + intros _. rewrite mul_NaN_r. vm_compute. reflexivity.
    + intros Hn. rewrite orZero_toFixed; [apply num_eq_refl|].
      intros E. rewrite E in Hn. now apply Hn.
    + intros Hn. rewrite orZero_toFixed; [apply num_eq_refl|].
      intros E. rewrite E in Hn. now apply Hn.
    + intros Hn. rewrite orZero_toFixed; [apply num_eq_refl|].
      intros E. rewrite E in Hn. now apply Hn.
  - destruct (JS.parseInt q) as [| | |n] eqn:En; cbn [JS.isNaN negb andb].
    + intros _. rewrite mul_NaN_r. vm_compute. reflexivity.
    + intros Hn. rewrite orZero_toFixed; [apply num_eq_refl|].
      intros E. rewrite E in Hn. now apply Hn.
    + intros Hn. rewrite orZero_toFixed; [apply num_eq_refl|].
      intros E. rewrite E in Hn. now apply Hn.
    + intros Hn. rewrite orZero_toFixed; [apply num_eq_refl|].
      intros E. rewrite E in Hn. now apply Hn.
  - destruct (JS.parseInt q) as [| | |n] eqn:En; cbn [JS.isNaN negb andb].
    + intros _. rewrite mul_NaN_r. vm_compute. reflexivity.
    + intros Hn. rewrite orZero_toFixed; [apply num_eq_refl|].
      intros E. rewrite E in Hn. now apply Hn.
    + intros Hn. rewrite orZero_toFixed; [apply num_eq_refl|].
      intros E. rewrite E in Hn. now apply Hn.
    + intros Hn. rewrite orZero_toFixed; [apply num_eq_refl|].
      intros E. rewrite E in Hn. now apply Hn.
Qed.

End CompanyActionFacts.

Section CompanyActionRanking.

Variable now : Z.
Variable iso : string.
Variable defaultNotes : CompanyAction.Kind -> MockCompany -> string.



End CompanyActionRanking.

Lemma admin_volume_agrees_witness :
  JS.num_eq (adminCubicMeters sampleCompanyForm) (cubicMetersOf (featuresOf sampleCompanyForm)).
Proof. apply (admin_volume_agrees sampleCompanyForm); try reflexivity. discriminate. Defined.


(** ** Charts of the admin pages against the dashboard

    The matchmaking page sorts the list it loads by date; its state is a
    rearrangement of the stored list. *)

Section StatusCharts.

Lemma recordsWith_perm (k : string) (l l' : list Stored.Item) :
  Permutation l l' -> recordsWith k l = recordsWith k l'.
Proof.
  unfold recordsWith. induction 1 as [|x l l' _ IH|x y l|l l' l'' _ IH1 _ IH2];
    cbn [filter].
  - reflexivity.
  - destruct (hasStatus k x); simpl; now rewrite IH.
  - destruct (hasStatus k x), (hasStatus k y); reflexivity.
  - now rewrite IH1.
Qed.

Variable t : string -> string.
Variable s : Store.
Variable prev : AdminFeatureState.

(** The status charts of the matchmaking page and of the stock management
    page show, status by status, the counts of the dashboard summaries over
    the same stored records, in whatever order the page holds them; a page
    whose list is still undefined shows no bars. *)
Theorem status_charts_agree (allDemands allStockItems : list Listing.Item) :
  Permutation allDemands (demands s) ->
  Permutation allStockItems (stockItems s) ->
  (map value (getDemandStatusChartData t (Some allDemands))
   = map (fun row => ofCount (count row))
         (fst (loadOrderStatusSummary (dashboardStorage s) prev))
   /\ getDemandStatusChartData t None = [])
  /\ (map value (getStockStatusChartData t (Some allStockItems))
      = map (fun row => ofCount (count row))
            (fst (loadStockStatusSummary (dashboardStorage s) prev))
      /\ getStockStatusChartData t None = []).
Proof.
  intros Hd Hs.
  apply (Permutation_map Listing.dashboard) in Hd, Hs.
  split; (split; [|reflexivity]).
  - cbn [loadOrderStatusSummary fst dashboardStorage CUSTOMER_DEMANDS].
    rewrite <- (map_map count ofCount), order_counts.
    unfold getDemandStatusChartData. cbv zeta. cbn [map value DemandStatus.values].
    rewrite !demand_countAt by (simpl; tauto).
    now rewrite !(recordsWith_perm _ _ _ Hd).
  - cbn [loadStockStatusSummary fst dashboardStorage MANUFACTURER_STOCK].
    rewrite <- (map_map count ofCount), stock_counts.
    unfold getStockStatusChartData. cbv zeta. cbn [map value StockStatus.values].
    rewrite !stock_countAt by (simpl; tauto).
    now rewrite !(recordsWith_perm _ _ _ Hs).
Qed.

End StatusCharts.

(** ** Totals of the matchmaking page against the ranking *)

Section CompanyTotals.




Variable company : MockCompany.
Hypothesis company_id : JS.truthy (id company) = true.



Variable s : Store.


End CompanyTotals.

(** ** The chart of stock by diameter type *)

Section DiameterTypeChart.

Variable t : string -> string.
Variable options : list (string * string).

Lemma initial_counts_get (k : string) (opts : list (string * string)) (acc : Obj.t nat) :
  Obj.get k (fold_left (fun counts opt => Obj.set (fst opt) 0%nat counts) opts acc)
  = if existsb (fun opt => String.eqb k (fst opt)) opts then Some 0%nat
    else Obj.get k acc.
Proof.
  revert acc. induction opts as [|opt opts IH]; intros acc; cbn [fold_left existsb].
  - reflexivity.
  - rewrite IH. destruct (existsb (fun o => String.eqb k (fst o)) opts).
    + now rewrite orb_true_r.
    + rewrite orb_false_r. destruct (String.eqb_spec k (fst opt)) as [->|Hne].
      * apply get_set_same.
      * apply get_set_other. congruence.
Qed.

Lemma diameterTypeCounts_fold (items : list Listing.Item) :
  diameterTypeCounts options items
  = fold_left countStatus (typeKeys items)
      (fold_left (fun counts opt => Obj.set (fst opt) 0%nat counts) options []).
Proof.
  unfold diameterTypeCounts.
  generalize (fold_left (fun counts opt => Obj.set (fst opt) 0%nat counts) options []).
  induction items as [|item items IH]; intros counts; cbn [fold_left typeKeys flat_map].
  - reflexivity.
  - rewrite IH. destruct (JS.truthy (Listing.diameterType item)); reflexivity.
Qed.

Lemma occ_typeKeys (k : string) (items : list Listing.Item) :
  occ k (typeKeys items) = if JS.truthy k then itemsOfType k items else 0%nat.
Proof.
  unfold occ, itemsOfType, typeKeys.
  induction items as [|item items IH]; cbn [flat_map filter List.length].
  - now destruct (JS.truthy k).
  - rewrite filter_app, length_app, IH. clear IH.
    destruct (String.eqb_spec k (Listing.diameterType item)) as [->|Hne].
    + rewrite String.eqb_refl.
      destruct (JS.truthy (Listing.diameterType item)); cbn [filter List.length].
      * rewrite String.eqb_refl. reflexivity.
      * reflexivity.
    + assert (E : String.eqb (Listing.diameterType item) k = false)
        by (apply String.eqb_neq; congruence).
      rewrite E.
      assert (E' : String.eqb k (Listing.diameterType item) = false)
        by (now apply String.eqb_neq).
      destruct (JS.truthy (Listing.diameterType item)); cbn [filter List.length];
        rewrite ?E'; reflexivity.
Qed.

Lemma diameterType_countAt (items : list Listing.Item) (opt : string * string) :
  In opt options ->
  countAt (diameterTypeCounts options items) (fst opt) = itemsOfOption opt items.
Proof.
  intros Hin. unfold countAt, itemsOfOption.
  rewrite diameterTypeCounts_fold, fold_countStatus_get, initial_counts_get.
  assert (Hex : existsb (fun o => String.eqb (fst opt) (fst o)) options = true).
  { apply existsb_exists. exists opt. split; [exact Hin | apply String.eqb_refl]. }
  rewrite Hex. cbn [option_map]. rewrite occ_typeKeys. lia.
Qed.

Lemma mapi_from_ext_in {A B : Type} (f g : A -> nat -> B) (i : nat) (l : list A) :
  (forall a j, In a l -> f a j = g a j) -> mapi_from i f l = mapi_from i g l.
Proof.
  revert i. induction l as [|a l IH]; intros i H; cbn [mapi_from]; [reflexivity|].
  rewrite (H a i (or_introl eq_refl)), IH; [reflexivity|].
  intros a' j Hin. apply H. now right.
Qed.

(** Over option values without repeats, the items counted are at most the
    items there are. *)
Lemma itemsOfOption_sum (items : list Listing.Item) :
  NoDup (map fst options) ->
  (list_sum (map (fun opt => itemsOfOption opt items) options)
   <= List.length items)%nat.
Proof.
  intros Hnd. induction items as [|item items IH].
  - assert (E : forall opts : list (string * string),
               list_sum (map (fun opt => itemsOfOption opt []) opts) = 0%nat).
    { induction opts as [|o opts IHo]; [reflexivity|]. cbn [map].
      change (list_sum (?x :: ?l)) with (x + list_sum l)%nat. rewrite IHo.
      unfold itemsOfOption, itemsOfType. now destruct (JS.truthy (fst o)). }
    rewrite E. simpl. lia.
  - assert (Hstep : forall opts, NoDup (map fst opts) ->
              (list_sum (map (fun opt => itemsOfOption opt (item :: items)) opts)
               <= (if existsb (fun o => String.eqb (Listing.diameterType item) (fst o)) opts
                   then 1 else 0)
                  + list_sum (map (fun opt => itemsOfOption opt items) opts))%nat).
    { clear IH Hnd. induction opts as [|o opts IHo]; intros Hnd; [simpl; lia|].
      cbn [map] in Hnd. inversion Hnd as [|? ? Hnotin Hnd']; subst.
      specialize (IHo Hnd'). cbn [map existsb].
      change (list_sum (?x :: ?l)) with (x + list_sum l)%nat.
      unfold itemsOfOption at 1 3, itemsOfType. cbn [filter].
      destruct (String.eqb_spec (Listing.diameterType item) (fst o)) as [E|_].
      - assert (Hrest : existsb (fun o0 => String.eqb (Listing.diameterType item) (fst o0))
                          opts = false).
        { apply not_true_is_false. intros Hex.
          apply existsb_exists in Hex as (o' & Hin & Ho').
          apply String.eqb_eq in Ho'. apply Hnotin. rewrite <- E, Ho'.
          now apply in_map. }
        rewrite Hrest in IHo. cbn [orb].
        destruct (JS.truthy (fst o)); cbn [List.length] in *; lia.
      - cbn [orb].
        destruct (JS.truthy (fst o));
          destruct (existsb (fun o0 => String.eqb (Listing.diameterType item) (fst o0)) opts);
          lia. }
    specialize (Hstep options Hnd). cbn [List.length].
    destruct (existsb (fun o => String.eqb (Listing.diameterType item) (fst o)) options);
      lia.
Qed.

(** The diameter-type chart has one bar per option, in the order of the
    options and with the translated label of each; the bar of an option
    counts the stock items with that diameter type (none for an option
    with an empty value), so items with another type or none are left
    out; and when no two options share a value the bars add up to at most
    the number of items. *)
Theorem diameter_type_chart (items : list Listing.Item) :
  map label (getStockDiameterTypeChartData t options (Some items))
  = map (fun opt => t (snd opt)) options
  /\ map value (getStockDiameterTypeChartData t options (Some items))
     = map (fun opt => ofCount (itemsOfOption opt items)) options
  /\ (NoDup (map fst options) ->
      (list_sum (map (fun opt => itemsOfOption opt items) options)
       <= List.length items)%nat)
  /\ getStockDiameterTypeChartData t options None = [].
Proof.
  unfold getStockDiameterTypeChartData, mapi. cbv zeta. repeat split.
  - now apply mapi_from_proj.
  - rewrite (mapi_from_ext_in _
               (fun opt index => mkEntry (t (snd opt)) (ofCount (itemsOfOption opt items))
                                         (diameterTypeColor index))).
    + now apply mapi_from_proj.
    + intros opt j Hin. now rewrite diameterType_countAt.
  - apply itemsOfOption_sum.
Qed.

End DiameterTypeChart.

Lemma diameter_type_chart_witness :
  (list_sum (map (fun opt => itemsOfOption opt
                    [newStockItem 1 "d" (mkStockForm (form "10" "20" "4" "5") "" "")])
                 [("mid", "diameterType_mid"); ("top", "diameterType_top")]%string)
   <= 1)%nat.
Proof.
  apply (proj1 (proj2 (proj2 (diameter_type_chart (fun k => k)
           [("mid", "diameterType_mid"); ("top", "diameterType_top")]%string
           [newStockItem 1 "d" (mkStockForm (form "10" "20" "4" "5") "" "")])))).
  repeat constructor; simpl; intuition discriminate.
Defined.

(** ** Looking a demand or a stock item up by id *)

Section Lookups.

Lemma startsWith_spec (p s : string) :
  JS.startsWith p s = true <-> exists b, s = (p ++ b)%string.
Proof.
  revert s. induction p as [|a p IH]; intros s; cbn [JS.startsWith].
  - split; [intros _; now exists s | reflexivity].
  - destruct s as [|c s]; [split; [discriminate | intros [b Hb]; discriminate]|].
    split.
    + intros H. apply andb_true_iff in H as [Hc Hs]. apply Ascii.eqb_eq in Hc.
      apply IH in Hs as [b ->]. exists b. now subst.
    + intros [b Hb]. cbn in Hb. injection Hb as -> ->.
      rewrite Ascii.eqb_refl. apply IH. now exists b.
Qed.

Lemma includes_spec (s t : string) : includes s t = true <-> occursIn t s.
Proof.
  unfold occursIn. induction s as [|c r IH]; cbn [includes].
  - rewrite startsWith_spec. split.
    + intros [b Hb]. exists EmptyString, b. exact Hb.
    + intros (a & b & H). destruct a; [now exists b | discriminate].
  - rewrite orb_true_iff, startsWith_spec, IH. split.
    + intros [[b Hb] | (a & b & Hr)].
      * exists EmptyString, b. exact Hb.
      * exists (String c a), b. cbn. now rewrite Hr.
    + intros (a & b & H). destruct a as [|c' a].
      * left. now exists b.
      * right. cbn in H. injection H as _ ->. now exists a, b.
Qed.

Lemma includes_refl (s : string) : includes s s = true.
Proof.
  apply includes_spec. exists EmptyString, EmptyString. cbn.
  induction s as [|c s IH]; cbn; [reflexivity | now rewrite <- IH].
Qed.

Lemma includes_empty (s : string) : includes s EmptyString = true.
Proof. apply includes_spec. now exists EmptyString, s. Qed.

Lemma string_length_append (a b : string) :
  String.length (a ++ b) = (String.length a + String.length b)%nat.
Proof. induction a as [|c a IH]; cbn; [reflexivity | now rewrite IH]. Qed.

Lemma append_empty_r (s : string) : (s ++ "")%string = s.
Proof. induction s as [|c s IH]; cbn; [reflexivity | now rewrite IH]. Qed.

(** Among ids of one length, occurring in is being equal. *)
Lemma includes_same_length (s t : string) :
  String.length s = String.length t -> includes s t = String.eqb s t.
Proof.
  intros Hlen. destruct (String.eqb_spec s t) as [->|Hne].
  - apply includes_refl.
  - apply not_true_is_false. intros H. apply includes_spec in H as (a & b & E).
    apply Hne. rewrite E in Hlen. rewrite !string_length_append in Hlen.
    destruct a; [|cbn in Hlen; lia]. destruct b; [|cbn in Hlen; lia].
    cbn in E. now rewrite append_empty_r in E.
Qed.

Lemma stockIdMatches_related (id : string) (s : Listing.Item) :
  stockIdMatches id s = true ->
  exists sid, Listing.id s = Some sid /\ relatedIds id sid.
Proof.
  unfold stockIdMatches, relatedIds. destruct (Listing.id s) as [sid|]; [|discriminate].
  intros H. exists sid. split; [reflexivity|].
  apply orb_true_iff in H as [H | H]; [apply orb_true_iff in H as [H | H]|].
  - apply String.eqb_eq in H. subst. left. apply includes_spec, includes_refl.
  - apply andb_true_iff in H as [_ H]. left. now apply includes_spec.
  - apply andb_true_iff in H as [_ H]. right. now apply includes_spec.
Qed.

Lemma stockIdMatches_exact (id : string) (s : Listing.Item) :
  hasId id s = true -> stockIdMatches id s = true.
Proof.
  unfold hasId, stockIdMatches. destruct (Listing.id s); [|discriminate].
  now intros ->.
Qed.

Lemma findDemand_found (id : string) (items : list Listing.Item) (d : Listing.Item) :
  findDemand id items = Found d ->
  In d items /\ exists did, Listing.id d = Some did /\ relatedIds id did.
Proof.
  induction items as [|x items IH]; cbn [findDemand]; [discriminate|].
  destruct (Listing.id x) as [xid|] eqn:E; [|discriminate].
  destruct (String.eqb xid id || includes xid id || includes id xid)%bool eqn:M.
  - intros H. injection H as <-. split; [now left|]. exists xid. split; [exact E|].
    unfold relatedIds.
    apply orb_true_iff in M as [M | M]; [apply orb_true_iff in M as [M | M]|].
    + apply String.eqb_eq in M. subst. left. apply includes_spec, includes_refl.
    + left. now apply includes_spec.
    + right. now apply includes_spec.
  - intros H. destruct (IH H) as [Hin Hrel]. split; [now right | exact Hrel].
Qed.

Lemma findDemand_error (id : string) (items : list Listing.Item) :
  findDemand id items = TypeError -> exists d, In d items /\ hasSomeId d = false.
Proof.
  induction items as [|x items IH]; cbn [findDemand]; [discriminate|].
  destruct (Listing.id x) as [xid|] eqn:E.
  - destruct (String.eqb xid id || includes xid id || includes id xid)%bool; [discriminate|].
    intros H. destruct (IH H) as (d & Hin & Hd). exists d. split; [now right | exact Hd].
  - intros _. exists x. split; [now left|]. unfold hasSomeId. now rewrite E.
Qed.

(** A lookup returns an item of the list whose id and the query occur one
    in the other: not always the item with exactly the queried id, but the
    first whose id is related.  The lookup of a stock item succeeds
    whenever some item carries exactly the queried id; the lookup of a
    demand fails with a type error only on a list with a demand without
    id.  A page whose list is undefined finds nothing. *)
Theorem lookups_related (items : list Listing.Item) (id : string) :
  (forall s, getStockById (Some items) id = Some s ->
     In s items /\ exists sid, Listing.id s = Some sid /\ relatedIds id sid)
  /\ ((exists s, In s items /\ hasId id s = true) ->
      exists s', getStockById (Some items) id = Some s')
  /\ (forall d, getDemandById (Some items) id = Found d ->
       In d items /\ exists did, Listing.id d = Some did /\ relatedIds id did)
  /\ (getDemandById (Some items) id = TypeError ->
      exists d, In d items /\ hasSomeId d = false)
  /\ getStockById None id = None
  /\ getDemandById None id = NotFound.
Proof.
  cbn [getStockById getDemandById]. split; [|split; [|split; [|split; [|split]]]].
  - intros s H. split.
    + now apply find_some in H.
    + apply find_some in H as [_ H]. now apply stockIdMatches_related.
  - intros (s & Hin & Hs).
    destruct (find (stockIdMatches id) items) as [s'|] eqn:E; [now exists s'|].
    pose proof (find_none _ _ E s Hin) as Hnone.
    rewrite (stockIdMatches_exact id s Hs) in Hnone. discriminate.
  - intros d. apply findDemand_found.
  - apply findDemand_error.
  - reflexivity.
  - reflexivity.
Qed.

(** When every stored id has the length of the queried id, as ids made of
    a prefix and a time stamp have, the lookups are exact: they return the
    first item carrying exactly that id, and nothing when there is none. *)
Theorem lookups_exact_on_equal_lengths (items : list Listing.Item) (id : string) :
  (forall item i, In item items -> Listing.id item = Some i ->
                  String.length i = String.length id) ->
  getStockById (Some items) id = find (hasId id) items
  /\ ((forall item, In item items -> hasSomeId item = true) ->
      getDemandById (Some items) id
      = match find (hasId id) items with
        | Some d => Found d
        | None => NotFound
        end).
Proof.
  intros Hlen. split.
  - cbn [getStockById]. induction items as [|s items IH]; [reflexivity|].
    cbn [find]. rewrite IH by (intros item i Hin; apply Hlen; now right).
    replace (stockIdMatches id s) with (hasId id s); [reflexivity|].
    unfold hasId, stockIdMatches. destruct (Listing.id s) as [sid|] eqn:E; [|reflexivity].
    pose proof (Hlen s sid (or_introl eq_refl) E) as Hl.
    rewrite (includes_same_length sid id Hl).
    rewrite (includes_same_length id sid (eq_sym Hl)).
    rewrite (String.eqb_sym id sid).
    destruct (String.eqb sid id), (JS.truthy sid); reflexivity.
  - intros Hids. cbn [getDemandById]. induction items as [|d items IH]; [reflexivity|].
    cbn [findDemand find].
    pose proof (Hids d (or_introl eq_refl)) as Hd. unfold hasSomeId in Hd. unfold hasId.
    destruct (Listing.id d) as [did|] eqn:E; [|discriminate].
    pose proof (Hlen d did (or_introl eq_refl) E) as Hl.
    rewrite (includes_same_length did id Hl).
    rewrite (includes_same_length id did (eq_sym Hl)).
    rewrite (String.eqb_sym id did).
    destruct (String.eqb did id); cbn [orb]; [reflexivity|].
    apply IH.
    + intros item i Hin. apply Hlen. now right.
    + intros item Hin. apply Hids. now right.
Qed.

(** An empty query matches every id: the lookups then return the first
    stock item that has an id, and the first demand of the list (or fail
    on it when it has no id). *)
Theorem lookups_on_empty_query (items : list Listing.Item) :
  getStockById (Some items) "" = find hasSomeId items
  /\ getDemandById (Some items) ""
     = match items with
       | [] => NotFound
       | d :: _ => if hasSomeId d then Found d else TypeError
       end.
Proof.
  split.
  - cbn [getStockById]. induction items as [|s items IH]; [reflexivity|].
    cbn [find]. rewrite IH.
    replace (stockIdMatches "" s) with (hasSomeId s); [reflexivity|].
    unfold stockIdMatches, hasSomeId. destruct (Listing.id s) as [sid|]; [|reflexivity].
    rewrite includes_empty. destruct sid; reflexivity.
  - cbn [getDemandById]. destruct items as [|d items]; [reflexivity|].
    cbn [findDemand]. unfold hasSomeId. destruct (Listing.id d) as [did|]; [|reflexivity].
    rewrite includes_empty. now rewrite orb_true_r.
Qed.

End Lookups.

(** ** The bar chart component *)

Section BarChartFacts.

Import BarChart.

Lemma mapi_from_In_bound {A B : Type} (f : A -> nat -> B) (i : nat) (l : list A) (e : B) :
  In e (mapi_from i f l) ->
  exists a j, In a l /\ (i <= j < i + List.length l)%nat /\ e = f a j.
Proof.
  revert i. induction l as [|a l IH]; intros i; cbn [mapi_from In List.length]; [tauto|].
  intros [<- | H].
  - exists a, i. repeat split; auto; lia.
  - destruct (IH _ H) as (a' & j & Hin & Hj & ->). exists a', j.
    repeat split; auto; lia.
Qed.

Lemma max2_ge_l (a b : Q) : a <= max2 a b.
Proof.
  unfold max2. destruct (Qle_bool a b) eqn:E; [now apply Qle_bool_iff | apply Qle_refl].
Qed.

Lemma max2_ge_r (a b : Q) : b <= max2 a b.
Proof.
  unfold max2. destruct (Qle_bool a b) eqn:E; [apply Qle_refl|].
  destruct (Qlt_le_dec b a) as [H|H]; [now apply Qlt_le_weak|].
  rewrite <- Qle_bool_iff in H. congruence.
Qed.

Lemma maxValue_ge (items : list ChartEntry) (item : ChartEntry) :
  In item items -> value item <= maxValue items.
Proof.
  unfold maxValue. induction items as [|x items IH]; cbn [In map fold_right]; [tauto|].
  intros [<- | H].
  - apply max2_ge_l.
  - eapply Qle_trans; [apply (IH H) | apply max2_ge_r].
Qed.

Lemma maxValue_nonneg (items : list ChartEntry) : 0 <= maxValue items.
Proof.
  unfold maxValue. induction items as [|x items IH]; cbn [map fold_right].
  - apply Qle_refl.
  - eapply Qle_trans; [exact IH | apply max2_ge_r].
Qed.

(** The maximum is reached by one of the values when it is positive. *)
Lemma maxValue_reached (items : list ChartEntry) :
  0 < maxValue items -> exists item, In item items /\ value item = maxValue items.
Proof.
  unfold maxValue. induction items as [|x items IH]; cbn [map fold_right In].
  - intros H. exfalso. revert H. apply Qlt_irrefl.
  - unfold max2 at 1 3.
    destruct (Qle_bool (value x) (fold_right max2 0 (map value items))).
    + intros H. destruct (IH H) as (item & Hin & Hv). exists item. auto.
    + intros _. exists x. auto.
Qed.

Lemma ratio_bounds (v m w : Q) :
  0 <= v -> v <= m -> 0 < m -> 0 <= w -> 0 <= v / m * w /\ v / m * w <= w.
Proof.
  intros Hv Hvm Hm Hw.
  assert (H0 : 0 <= v / m) by (apply Qle_shift_div_l; lra).
  assert (H1 : v / m <= 1) by (apply Qle_shift_div_r; lra).
  split.
  - now apply Qmult_le_0_compat.
  - rewrite <- (Qmult_1_l w) at 2. now apply Qmult_le_compat_r.
Qed.

(** What the component renders for data that is not empty. *)
Lemma render_chart (props : Props) (items : list ChartEntry) :
  data props = Some items -> items <> [] ->
  (showValues props = percentage -> totalForPercentage props <> None) ->
  render props
  = Chart (if negb (Qle_bool (inject_Z (Z.of_nat (List.length items))
                              * (barHeight props + gap props) - gap props) 0)
           then inject_Z (Z.of_nat (List.length items))
                * (barHeight props + gap props) - gap props
           else barHeight props)
          (mapi (bar props (maxValue items)) items).
Proof.
  intros Hd Hne Hc. unfold render. rewrite Hd.
  destruct items as [|x l]; [congruence|]. cbv zeta.
  destruct (showValues props); try reflexivity.
  destruct (totalForPercentage props); [reflexivity|].
  now contradiction (Hc eq_refl).
Qed.

Variable props : Props.
Variable items : list ChartEntry.

Hypothesis Hdata : data props = Some items.
Hypothesis Hitems : items <> [].
Hypothesis Hvalues : Forall (fun item => 0 <= value item) items.
Hypothesis Hheight : 0 < barHeight props.
Hypothesis Hgap : 0 <= gap props.
Hypothesis Hlabel : 0 <= labelWidthPx props <= 490.
Hypothesis Hconfig :
  showValues props = percentage -> totalForPercentage props <> None.

(** For data that is not negative, a positive bar height, a gap that is
    not negative and a label width of at most 490 pixels, the chart has
    one bar per data point and every bar lies inside the view box: below
    the top and above the bottom, and between the label area and the end
    padding; the largest value, if positive, fills the bar area. *)
Theorem bars_inside_view_box :
  exists h bars,
    render props = Chart h bars
    /\ List.length bars = List.length items
    /\ Forall (fun b =>
                 0 <= y b /\ y b + barHeight props <= h
                 /\ barX b == labelAreaWidthUnits props
                 /\ 0 <= barRectWidthUnits b
                 /\ barX b + barRectWidthUnits b
                    <= VIEWBOX_TOTAL_WIDTH_UNITS - END_PADDING_UNITS)
              bars
    /\ (0 < maxValue items ->
        Exists (fun b => barRectWidthUnits b == barAreaWidthUnits props) bars).
Proof.
  set (n := inject_Z (Z.of_nat (List.length items))).
  set (step := barHeight props + gap props).
  assert (Hn : 1 <= n).
  { unfold n. change 1 with (inject_Z 1). rewrite <- Zle_Qle.
    destruct items; [congruence | cbn [List.length]; lia]. }
  assert (Hstep : 0 < step) by (unfold step; lra).
  assert (Hch : n * step - gap props == (n - 1) * step + barHeight props)
    by (unfold step; ring).
  assert (Hpos : 0 < n * step - gap props).
  { rewrite Hch. assert (0 <= (n - 1) * step) by (apply Qmult_le_0_compat; lra). lra. }
  assert (Harea : 0 <= barAreaWidthUnits props).
  { unfold barAreaWidthUnits, labelAreaWidthUnits, VIEWBOX_TOTAL_WIDTH_UNITS,
      END_PADDING_UNITS.
    assert (E : labelWidthPx props / 500 * 1000 == labelWidthPx props * 2) by field.
    rewrite E. lra. }
  exists (n * step - gap props), (mapi (bar props (maxValue items)) items).
  split; [|split; [|split]].
  - rewrite (render_chart props items Hdata Hitems Hconfig). fold n step.
    assert (Hb : negb (Qle_bool (n * step - gap props) 0) = true).
    { apply negb_true_iff, not_true_is_false. intros H. apply Qle_bool_iff in H. lra. }
    now rewrite Hb.
  - apply mapi_from_length.
  - apply Forall_forall. intros b Hb. unfold mapi in Hb.
    apply mapi_from_In_bound in Hb as (item & j & Hin & Hj & ->).
    cbn [bar y barX barRectWidthUnits]. fold step.
    set (jq := inject_Z (Z.of_nat j)).
    assert (Hj0 : 0 <= jq).
    { unfold jq. change 0 with (inject_Z 0). rewrite <- Zle_Qle. lia. }
    assert (Hjn' : jq + 1 <= n).
    { unfold jq, n. change 1 with (inject_Z 1).
      rewrite <- inject_Z_plus, <- Zle_Qle. lia. }
    assert (Hjn : jq <= n - 1) by lra.
    assert (Hy : 0 <= jq * step) by (apply Qmult_le_0_compat; lra).
    assert (Hy' : jq * step <= (n - 1) * step) by (apply Qmult_le_compat_r; lra).
    pose proof (proj1 (Forall_forall _ _) Hvalues item Hin) as Hv.
    pose proof (maxValue_ge items item Hin) as Hm.
    split; [exact Hy|]. split; [rewrite Hch; lra|]. split; [reflexivity|].
    destruct (Qle_bool (maxValue items) 0) eqn:Em; cbn [negb].
    + split; [apply Qle_refl|]. unfold barAreaWidthUnits in Harea.
      generalize dependent (labelAreaWidthUnits props).
      unfold VIEWBOX_TOTAL_WIDTH_UNITS, END_PADDING_UNITS. intros; lra.
    + assert (Hmax : 0 < maxValue items).
      { destruct (Qlt_le_dec 0 (maxValue items)) as [H|H]; [exact H|].
        rewrite <- Qle_bool_iff in H. congruence. }
      destruct (ratio_bounds _ _ _ Hv Hm Hmax Harea) as [Hlo Hhi].
      split; [exact Hlo|]. unfold barAreaWidthUnits in Hhi |- *.
      generalize dependent (value item / maxValue items
                            * (VIEWBOX_TOTAL_WIDTH_UNITS - labelAreaWidthUnits props
                               - END_PADDING_UNITS)).
      intros w Hw. generalize dependent (labelAreaWidthUnits props).
      unfold VIEWBOX_TOTAL_WIDTH_UNITS, END_PADDING_UNITS. intros; lra.
  - intros Hmax. destruct (maxValue_reached items Hmax) as (item & Hin & Hv).
    apply Exists_exists.
    destruct (In_nth _ _ item Hin) as (j & Hj & Hnth).
    assert (Hbar : forall (l : list ChartEntry) (i k : nat) (d : ChartEntry),
               (k < List.length l)%nat ->
               In (bar props (maxValue items) (nth k l d) (i + k))
                  (mapi_from i (bar props (maxValue items)) l)).
    { induction l as [|x l IH]; intros i k d Hk; cbn [List.length] in Hk; [lia|].
      destruct k as [|k]; cbn [nth mapi_from].
      - left. now rewrite Nat.add_0_r.
      - right. replace (i + S k)%nat with (S i + k)%nat by lia. apply IH. lia. }
    exists (bar props (maxValue items) item (0 + j)). split.
    + rewrite <- Hnth. apply Hbar. exact Hj.
    + cbn [bar barRectWidthUnits].
      assert (Em : Qle_bool (maxValue items) 0 = false).
      { apply not_true_is_false. intros H. apply Qle_bool_iff in H. lra. }
      rewrite Em. cbn [negb]. rewrite Hv. field. lra.
Qed.

End BarChartFacts.

Section BarChartLabels.

Import BarChart.

(** With a label area of 45 units or more (a label width of 22.5 pixels),
    the label the chart shows has at most a fifteenth of the label area in
    characters: a longer label is cut to that length, its last three
    characters an ellipsis. *)
Theorem shown_label_fits (props : Props) (text : string) :
  45 <= labelAreaWidthUnits props ->
  inject_Z (Z.of_nat (String.length (shownLabel props text)))
  <= labelAreaWidthUnits props / 15.
Proof.
  intros HL. unfold shownLabel.
  set (L := labelAreaWidthUnits props / 15).
  assert (HL3 : 3 <= L) by (unfold L; apply Qle_shift_div_l; lra).
  destruct (Qle_bool (inject_Z (Z.of_nat (String.length text))) L) eqn:E; cbn [negb].
  - now apply Qle_bool_iff.
  - assert (Hlong : L < inject_Z (Z.of_nat (String.length text))).
    { destruct (Qlt_le_dec L (inject_Z (Z.of_nat (String.length text)))) as [H|H];
        [exact H|]. rewrite <- Qle_bool_iff in H. congruence. }
    pose proof (Qfloor_le L) as HF.
    assert (HF3 : (3 <= Qfloor L)%Z).
    { change 3%Z with (Qfloor 3). now apply Qfloor_resp_le. }
    assert (Hlen : (Qfloor L < Z.of_nat (String.length text))%Z).
    { rewrite Zlt_Qlt. lra. }
    rewrite string_length_append, length_substring by lia.
    cbn [String.length].
    replace (Z.of_nat (Z.to_nat (Qfloor L - 3) + 3)) with (Qfloor L) by lia.
    exact HF.
Qed.

Lemma chartData_label_length (st : Storage) (r : UserRole) (topN : Z) (e : ChartEntry) :
  In e (chartData st r topN) -> (String.length (label e) <= 15)%nat.
Proof.
  unfold chartData, mapi. intros Hin.
  apply mapi_from_In in Hin as (cv & j & _ & ->). cbn [chartEntry label].
  destruct (Nat.ltb_spec 15 (String.length (companyName (fst cv)))) as [H|H]; [|exact H].
  rewrite length_append, length_substring by lia. cbn. lia.
Qed.

Lemma default_label_unchanged (items : list ChartEntry) (sv : ShowValues)
    (total : option Q) (text : string) :
  (String.length text <= 15)%nat ->
  shownLabel (withDefaults items sv total) text = text.
Proof.
  intros Hlen. unfold shownLabel.
  assert (E : Qle_bool (inject_Z (Z.of_nat (String.length text)))
                       (labelAreaWidthUnits (withDefaults items sv total) / 15) = true).
  { apply Qle_bool_iff.
    assert (E16 : labelAreaWidthUnits (withDefaults items sv total) / 15 == 16)
      by reflexivity.
    rewrite E16. change 16 with (inject_Z 16). rewrite <- Zle_Qle. lia. }
  now rewrite E.
Qed.

(** The chart of the top companies never cuts a label of the ranking a
    second time: with its default label width it shows the labels of
    [loadTopCompaniesByVolume] as they are, one bar per entry; for an empty
    ranking it shows its no-data text. *)
Theorem ranking_chart_labels (st : Storage) (r : UserRole) (topN : Z) :
  match topCompaniesChart st r topN with
  | Chart _ bars => map labelText bars = map label (chartData st r topN)
  | NoData => chartData st r topN = []
  | ConfigError => False
  end.
Proof.
  unfold topCompaniesChart.
  pose proof (chartData_label_length st r topN) as Hlen.
  destruct (chartData st r topN) as [|e items] eqn:E; [reflexivity|].
  rewrite (render_chart _ (e :: items)); [|reflexivity|discriminate|discriminate].
  unfold mapi.
  rewrite (mapi_from_proj _ labelText
             (fun item => shownLabel (withDefaults (e :: items) absolute None)
                                     (label item)))
    by reflexivity.
  apply map_ext_in. intros item Hin. apply default_label_unchanged. now apply Hlen.
Qed.

End BarChartLabels.

Section DashboardChartFacts.

Import BarChart.

Variable translatedDemandStatus : string -> string.
Variable translatedStockStatus : string -> string.
Variable st : Storage.
Variable prev : AdminFeatureState.

Lemma ofCount_pos (n : nat) : negb (Qle_bool (ofCount (S n)) 0) = true.
Proof.
  apply negb_true_iff, not_true_is_false. intros H. apply Qle_bool_iff in H.
  unfold ofCount in H. change 0 with (inject_Z 0) in H. rewrite <- Zle_Qle in H. lia.
Qed.

Lemma ofCount_zero (n : nat) : Qle_bool (ofCount n) 0 = true <-> n = 0%nat.
Proof.
  rewrite Qle_bool_iff. unfold ofCount. change 0 with (inject_Z 0).
  rewrite <- Zle_Qle. lia.
Qed.

Lemma valueText_count (props : Props) (maxV : Q) (e : ChartEntry) (j n : nat) :
  showValues props = percentage -> value e = ofCount n ->
  (valueText (bar props maxV e j) = None <-> n = 0%nat).
Proof.
  intros Hs Hv. cbn [bar valueText]. rewrite Hs, Hv.
  destruct (Qle_bool (ofCount n) 0) eqn:E; cbn [negb].
  - split; [intros _; now apply ofCount_zero | reflexivity].
  - split; [discriminate|]. intros Hn. apply ofCount_zero in Hn. congruence.
Qed.

(** On the dashboard the bars of the two status charts carry, row by row,
    the percentages of the summaries: the chart computes them again from
    the counts and the total and arrives at the same figures; a value text
    is drawn exactly for the statuses that have records. *)
Theorem dashboard_charts_show_summary :
  (exists h bars,
     demandStatusChart translatedDemandStatus st prev = Chart h bars
     /\ Forall2 showsRow bars (fst (loadOrderStatusSummary st prev)))
  /\ (exists h bars,
       stockStatusChart translatedStockStatus st prev = Chart h bars
       /\ Forall2 showsRow bars (fst (loadStockStatusSummary st prev))).
Proof.
  unfold demandStatusChart, stockStatusChart. cbv zeta.
  cbn [loadOrderStatusSummary loadStockStatusSummary fst snd
       totalDemandsCount totalStockItemsCount option_map].
  split.
  - destruct (CUSTOMER_DEMANDS st) as [|d items] eqn:E.
    + eexists _, _. split; [reflexivity|].
      repeat constructor; try (eexists; split; [reflexivity | reflexivity]);
        try reflexivity.
    + unfold orderStatusSummary. cbn [List.length Nat.eqb].
      eexists _, _. split; [reflexivity|].
      unfold mapi. cbn [demandChartData map mapi_from].
      repeat constructor;
        try (apply valueText_count; reflexivity);
        (eexists; split;
         [cbn [bar displayValue display withDefaults showValues totalForPercentage
               value summaryPoint count];
          rewrite ofCount_pos; reflexivity
         | reflexivity]).
  - destruct (MANUFACTURER_STOCK st) as [|d items] eqn:E.
    + eexists _, _. split; [reflexivity|].
      repeat constructor; try (eexists; split; [reflexivity | reflexivity]);
        try reflexivity.
    + unfold stockStatusSummary. cbn [List.length Nat.eqb].
      eexists _, _. split; [reflexivity|].
      unfold mapi. cbn [stockChartData map mapi_from].
      repeat constructor;
        try (apply valueText_count; reflexivity);
        (eexists; split;
         [cbn [bar displayValue display withDefaults showValues totalForPercentage
               value summaryPoint count];
          rewrite ofCount_pos; reflexivity
         | reflexivity]).
Qed.

End DashboardChartFacts.

(** ** The further theorems on the sample data *)

Lemma stock_form_checks_nested_witness :
  isFormDataSufficientForImage sampleStockForm = true.
Proof. apply (proj1 (stock_form_checks_nested sampleStockForm)). reflexivity. Defined.

Lemma stock_analysis_needs_text_witness :
  isFormDataSufficientForAnalysis sparseStockForm = false.
Proof.
  apply (stock_analysis_needs_text sparseStockForm).
  - reflexivity.
  - intros n H. injection H as <-. left. simpl. lia.
  - right. reflexivity.
Defined.

Lemma status_charts_agree_witness :
  map value (getDemandStatusChartData (fun k => k) (Some (demands filledStore)))
  = map (fun row => ofCount (count row))
        (fst (loadOrderStatusSummary (dashboardStorage filledStore) initialState)).
Proof.
  apply (proj1 (proj1 (status_charts_agree (fun k => k) filledStore initialState
                         (demands filledStore) (stockItems filledStore)
                         (Permutation_refl _) (Permutation_refl _)))).
Defined.


Lemma lookups_related_witness :
  exists s', getStockById (Some (demands filledStore)) "DEM-ADM-1700000000000" = Some s'.
Proof.
  apply (proj1 (proj2 (lookups_related (demands filledStore) "DEM-ADM-1700000000000"))).
  exists (companyItem 1700000000000 "2023-11-14T22:13:20.000Z"
            (fun _ _ => "by admin"%string) CompanyAction.demand
            (mkCompany "comp-1" "Alpha Timber" CUSTOMER) sampleCompanyForm).
  split; [left; reflexivity | reflexivity].
Defined.

Lemma lookups_exact_on_equal_lengths_witness :
  getStockById (Some (demands filledStore)) "DEM-ADM-1700000000000"
  = find (hasId "DEM-ADM-1700000000000") (demands filledStore).
Proof.
  apply (proj1 (lookups_exact_on_equal_lengths (demands filledStore)
                  "DEM-ADM-1700000000000"
                  ltac:(intros item i [<- | []] H; injection H as <-; reflexivity))).
Defined.

Lemma bars_inside_view_box_witness :
  exists h bars,
    BarChart.render (BarChart.withDefaults twoBars BarChart.absolute None)
    = BarChart.Chart h bars
    /\ List.length bars = List.length twoBars
    /\ Forall (fun b => 0 <= BarChart.barRectWidthUnits b) bars.
Proof.
  assert (Hv : Forall (fun item => 0 <= value item) twoBars)
    by (repeat constructor; discriminate).
  assert (Hh : 0 < BarChart.barHeight (BarChart.withDefaults twoBars BarChart.absolute None))
    by reflexivity.
  assert (Hg : 0 <= BarChart.gap (BarChart.withDefaults twoBars BarChart.absolute None))
    by discriminate.
  assert (Hl : 0 <= BarChart.labelWidthPx (BarChart.withDefaults twoBars BarChart.absolute None)
               <= 490) by (split; discriminate).
  destruct (bars_inside_view_box
              (BarChart.withDefaults twoBars BarChart.absolute None) twoBars
              eq_refl ltac:(discriminate) Hv Hh Hg Hl ltac:(discriminate))
    as (h & bars & Hr & Hn & Hb & _).
  exists h, bars. split; [exact Hr|]. split; [exact Hn|].
  eapply Forall_impl; [|exact Hb]. intros b (_ & _ & _ & H & _). exact H.
Defined.

Lemma shown_label_fits_witness :
  inject_Z (Z.of_nat (String.length
     (BarChart.shownLabel (BarChart.withDefaults [] BarChart.absolute None)
        "Gamma Woodworks International")))
  <= 16.
Proof.
  apply (shown_label_fits (BarChart.withDefaults [] BarChart.absolute None)
           "Gamma Woodworks International").
  discriminate.
Defined.

Lemma toFixed_examples :
  toFixed 3 (7068583 # 1000000) = Some "7.069"%string
  /\ toFixed 1 (200000 # 2001) = Some "100.0"%string
  /\ toFixed 2 (- (1 # 200)) = Some "-0.01"%string
  /\ toFixed 3 (- (1 # 10000)) = Some "-0.000"%string
  /\ toFixed 0 (25 # 10) = Some "3"%string
  /\ toFixed 2 1234 = Some "1234.00"%string.
Proof. repeat split. Qed.

(** ** The decimal string of [toFixed] read back by [parseFloat] *)

Section ToFixedRoundTrip.

Lemma digitChar_digit (v : Z) :
  (0 <= v < 10)%Z -> JS.digit_in 10 (digitChar v) = Some v.
Proof.
  intros H.
  assert (C : (v = 0 \/ v = 1 \/ v = 2 \/ v = 3 \/ v = 4 \/ v = 5 \/ v = 6
               \/ v = 7 \/ v = 8 \/ v = 9)%Z) by lia.
  repeat (destruct C as [-> | C]; [reflexivity|]). now subst.
Qed.

Lemma digitChar_isDigit (v : Z) : (0 <= v < 10)%Z -> JS.isDigit (digitChar v) = true.
Proof. intros H. unfold JS.isDigit. now rewrite digitChar_digit. Qed.

Lemma digits_digitString (ds : list Z) (rest : string) :
  decimalDigits ds ->
  JS.digits 10 (digitString ds ++ rest)
  = (ds ++ fst (JS.digits 10 rest), snd (JS.digits 10 rest)).
Proof.
  induction 1 as [|v ds Hv _ IH]; cbn [digitString append app].
  - now destruct (JS.digits 10 rest).
  - cbn [JS.digits]. rewrite (digitChar_digit v Hv), IH. reflexivity.
Qed.

Lemma fold_digits (ds : list Z) (acc : Z) :
  fold_left (fun a v => (10 * a + v)%Z) ds acc
  = (acc * 10 ^ Z.of_nat (List.length ds)
     + fold_left (fun a v => (10 * a + v)%Z) ds 0)%Z.
Proof.
  revert acc. induction ds as [|v ds IH]; intros acc; cbn [fold_left List.length].
  - cbn. lia.
  - rewrite IH, (IH (10 * 0 + v)%Z), Nat2Z.inj_succ, Z.pow_succ_r by lia. lia.
Qed.

Lemma digits_value_cons (v : Z) (ds : list Z) :
  JS.digits_value 10 (v :: ds)
  = (v * 10 ^ Z.of_nat (List.length ds) + JS.digits_value 10 ds)%Z.
Proof.
  unfold JS.digits_value. cbn [fold_left]. rewrite fold_digits. lia.
Qed.

(** The last [k] digits of a number below [10^k] are digits, [k] of them,
    and spell the number. *)
Lemma lastDigits_spec (k : nat) (n : Z) :
  (0 <= n < 10 ^ Z.of_nat k)%Z ->
  decimalDigits (lastDigits k n)
  /\ List.length (lastDigits k n) = k
  /\ JS.digits_value 10 (lastDigits k n) = n.
Proof.
  revert n. induction k as [|k IH]; intros n Hn; cbn [lastDigits].
  - cbn in Hn. repeat split; [constructor | cbn; lia].
  - rewrite Nat2Z.inj_succ, Z.pow_succ_r in Hn by lia.
    assert (Hp : (0 < 10 ^ Z.of_nat k)%Z) by (apply Z.pow_pos_nonneg; lia).
    assert (Hm : (0 <= n mod 10 ^ Z.of_nat k < 10 ^ Z.of_nat k)%Z)
      by (apply Z.mod_pos_bound; lia).
    destruct (IH _ Hm) as (Hd & Hl & Hv).
    assert (Hq : (0 <= n / 10 ^ Z.of_nat k < 10)%Z).
    { split; [apply Z.div_pos; lia | apply Z.div_lt_upper_bound; lia]. }
    repeat split.
    + constructor; assumption.
    + cbn [List.length]. now rewrite Hl.
    + rewrite digits_value_cons, Hl, Hv.
      pose proof (Z.div_mod n (10 ^ Z.of_nat k)). lia.
Qed.

Lemma stripZeros_spec (ds : list Z) :
  decimalDigits ds -> ds <> [] ->
  decimalDigits (stripZeros ds) /\ stripZeros ds <> []
  /\ JS.digits_value 10 (stripZeros ds) = JS.digits_value 10 ds.
Proof.
  induction ds as [|v ds IH]; intros Hd Hne; [congruence|].
  destruct ds as [|w ds]; [cbn; auto|].
  cbn [stripZeros]. inversion Hd as [|? ? Hv Hd']; subst.
  destruct (Z.eqb_spec v 0) as [->|_].
  - destruct (IH Hd' ltac:(discriminate)) as (H1 & H2 & H3).
    repeat split; [exact H1 | exact H2 |].
    etransitivity; [exact H3|]. rewrite (digits_value_cons 0). lia.
  - repeat split; [exact Hd | discriminate].
Qed.

Lemma naturalDigits_spec (n : Z) :
  (0 <= n)%Z ->
  decimalDigits (naturalDigits n) /\ naturalDigits n <> []
  /\ JS.digits_value 10 (naturalDigits n) = n.
Proof.
  intros Hn. unfold naturalDigits.
  assert (Hb : (0 <= n < 10 ^ Z.of_nat (S (Z.to_nat (Z.log2 n))))%Z).
  { split; [exact Hn|]. rewrite Nat2Z.inj_succ, Z2Nat.id by apply Z.log2_nonneg.
    destruct (Z.eq_dec n 0) as [->|Hnz]; [reflexivity|].
    apply Z.lt_le_trans with (2 ^ Z.succ (Z.log2 n))%Z.
    - apply Z.log2_spec. lia.
    - apply Z.pow_le_mono_l. pose proof (Z.log2_nonneg n). lia. }
  destruct (lastDigits_spec _ _ Hb) as (Hd & Hl & Hv).
  assert (Hne : lastDigits (S (Z.to_nat (Z.log2 n))) n <> [])
    by (intros E; rewrite E in Hl; discriminate).
  destruct (stripZeros_spec _ Hd Hne) as (H1 & H2 & H3).
  repeat split; [exact H1 | exact H2 | now rewrite H3].
Qed.

(** A string of digits, a point and [d] more digits is read as the number
    it spells. *)
Lemma unsignedDecimal_digitString (w f : list Z) :
  decimalDigits w -> w <> [] -> decimalDigits f ->
  exists q,
    JS.unsignedDecimal
      (match f with
       | [] => digitString w
       | _ => digitString w ++ "." ++ digitString f
       end)%string = Some q
    /\ q == inject_Z (JS.digits_value 10 w)
            + inject_Z (JS.digits_value 10 f) / inject_Z (JS.pow10 (List.length f)).
Proof.
  intros Hw Hne Hf. unfold JS.unsignedDecimal.
  destruct f as [|v f].
  - rewrite <- (append_empty_r (digitString w)), (digits_digitString w "" Hw).
    cbn [JS.digits fst snd]. rewrite app_nil_r.
    destruct w as [|x w]; [congruence|]. cbn [JS.wholeLiteral JS.exponentPart].
    eexists. split; [reflexivity|]. cbn [List.length JS.digits_value fold_left].
    unfold JS.pow10. cbn. field.
  - rewrite (digits_digitString w _ Hw).
    cbn [append JS.digits JS.digit_in fst snd].
    change (JS.digit_in 10 ".") with (@None Z). cbn [fst snd]. rewrite app_nil_r.
    change (Ascii.eqb "." ".") with true. cbv iota.
    rewrite <- (append_empty_r (digitString (v :: f))), (digits_digitString _ "" Hf).
    cbn [JS.digits fst snd]. rewrite app_nil_r.
    destruct w as [|x w]; [congruence|]. cbn [JS.exponentPart].
    eexists. split; [reflexivity|]. cbn [Qpower]. field.
    pose proof (inject_pow10_pos (List.length (v :: f))). lra.
Qed.

Lemma parseFloat_digitString (minus : bool) (m : string) (c : ascii) (r : string) (q : Q) :
  m = String c r -> JS.isDigit c = true -> JS.unsignedDecimal m = Some q ->
  JS.parseFloat (if minus then "-" ++ m else m)%string
  = JS.Fin (if minus then - q else q).
Proof.
  intros -> Hc Hq. destruct (digit_char c Hc) as (Hw & Hm & Hp & _ & HI & _).
  unfold JS.parseFloat. destruct minus.
  - change (JS.signOf (JS.trimStart ("-" ++ String c r))) with (true, String c r).
    cbv iota. cbn [JS.startsWith]. rewrite HI.
    cbn [andb]. now rewrite Hq.
  - cbn [JS.trimStart]. rewrite Hw. cbn [JS.signOf]. rewrite Hm, Hp.
    cbn [JS.startsWith]. rewrite HI. cbn [andb]. now rewrite Hq.
Qed.

(** Reading back what [toFixed] printed gives the number rounded to [d]
    decimals: [parseFloat(x.toFixed(d))] loses nothing but the decimals
    beyond the [d]-th, for every finite [x] below [10^21] in size; and
    below that size [toFixed] does print in this notation. *)
Theorem toFixed_round_trip (d : nat) (x : Q) :
  Qabs x < inject_Z (10 ^ 21) ->
  exists s, toFixed d x = Some s
            /\ JS.num_eq (JS.parseFloat s) (JS.toFixed_parsed d (JS.Fin x)).
Proof.
  intros Hx. unfold toFixed.
  destruct (Qle_bool (inject_Z (10 ^ 21)) (Qabs x)) eqn:E.
  { apply Qle_bool_iff in E. lra. }
  clear E Hx. cbv zeta. eexists. split; [reflexivity|].
  set (n := JS.nearest d (Qabs x)).
  set (P := JS.pow10 d).
  assert (HP : (0 < P)%Z) by apply pow10_pos.
  assert (Hn : (0 <= n)%Z) by (apply nearest_nonneg, Qabs_nonneg).
  assert (HA : (0 <= n / P)%Z) by (apply Z.div_pos; lia).
  assert (HB : (0 <= n mod P < 10 ^ Z.of_nat d)%Z) by (apply Z.mod_pos_bound; exact HP).
  destruct (naturalDigits_spec _ HA) as (Wd & Wne & Wv).
  destruct (lastDigits_spec d _ HB) as (Fd & Fl & Fv).
  destruct (unsignedDecimal_digitString _ _ Wd Wne Fd) as (q & Hq & Eq).
  rewrite Wv, Fv, Fl in Eq. fold P in Eq.
  assert (Eqn : q == inject_Z n / inject_Z P).
  { rewrite Eq. rewrite (Z.div_mod n P) at 3 by lia.
    rewrite inject_Z_plus, inject_Z_mult. field.
    change 0 with (inject_Z 0). rewrite inject_Z_injective. lia. }
  set (m := match d with
            | 0%nat => digitString (naturalDigits (n / P))
            | S _ => (digitString (naturalDigits (n / P)) ++ "."
                      ++ digitString (lastDigits d (n mod P)))%string
            end).
  assert (Hm : JS.unsignedDecimal m = Some q).
  { unfold m. destruct d as [|d']; [exact Hq|].
    cbn [lastDigits] in Hq |- *. exact Hq. }
  assert (Hhead : exists c r, m = String c r /\ JS.isDigit c = true).
  { unfold m. destruct (naturalDigits (n / P)) as [|v w]; [congruence|].
    inversion Wd; subst. destruct d; eexists _, _; (split; [reflexivity|]);
      now apply digitChar_isDigit. }
  destruct Hhead as (c & r & Em & Hc).
  rewrite (parseFloat_digitString _ m c r q Em Hc Hm).
  cbn [JS.toFixed_parsed JS.num_eq]. unfold JS.roundTo.
  destruct (Qle_bool 0 x) eqn:Ex; cbn [negb].
  - rewrite Eqn, Qmake_pow10. fold P. unfold n.
    apply Qle_bool_iff in Ex.
    rewrite (nearest_comp d (Qabs x) x) by (now apply Qabs_pos). reflexivity.
  - rewrite Eqn, Qmake_pow10, inject_Z_opp. fold P. unfold n.
    assert (Hneg : x <= 0).
    { destruct (Qlt_le_dec 0 x) as [H|H]; [|exact H].
      apply Qlt_le_weak in H. rewrite <- Qle_bool_iff in H. congruence. }
    rewrite (nearest_comp d (Qabs x) (- x)) by (now apply Qabs_neg).
    field. change 0 with (inject_Z 0). rewrite inject_Z_injective. lia.
Qed.

End ToFixedRoundTrip.

Lemma toFixed_round_trip_witness :
  Qabs (7068583 # 1000000) < inject_Z (10 ^ 21)
  /\ exists s, toFixed 3 (7068583 # 1000000) = Some s
               /\ JS.num_eq (JS.parseFloat s)
                            (JS.toFixed_parsed 3 (JS.Fin (7068583 # 1000000))).
Proof.
  split; [reflexivity | apply (toFixed_round_trip 3 (7068583 # 1000000)); reflexivity].
Defined.
